(** * Benedict local voice dictation: a shallow embedding of the Python
    sources and the properties of its specification.

    Modelling conventions.
    - A Python [str] is a list of Unicode code points ([list N]); string
      literals of the source are injected with [u].
    - [str.strip()] and the regular-expression class [\s] use CPython's
      table of Unicode white space; [\w] is exact on ASCII and takes the
      Unicode database's alphanumeric classification of the other code
      points as a parameter ([unicode_alnum]).
    - Methods that touch the file system or the language model are
      functions in a state-and-exception monad; a raised exception keeps
      the state changes made before it, as in Python.
    - The chain [prompt | llm | parser] is an oracle from the rendered
      prompt to either an exception or the model's text; every call is
      recorded in the world so that calls can be counted.
    - Files are text files on a POSIX system: writing stores the text as
      given, reading in text mode translates CR LF and a lone CR to LF
      ([universal_newlines]); opening a file for writing succeeds.
    - [datetime.now()] is an argument of the method that reads the clock.
    - [print] statements have no counterpart. *)

From Stdlib Require Import String Ascii NArith Lia.
From stdpp Require Import gmap list.

Set Default Proof Using "Type".

(** ** Python strings *)

Definition codepoint : Type := N.
Definition str : Type := list codepoint.

(** Injection of a source literal. *)
Definition u (s : string) : str := map N_of_ascii (list_ascii_of_string s).
Arguments u s%_string.

Definition LF : codepoint := 10%N.
Definition CR : codepoint := 13%N.
Definition SPACE : codepoint := 32%N.
Definition HYPHEN : codepoint := 45%N.
Definition UNDERSCORE : codepoint := 95%N.
Definition BACKSLASH : codepoint := 92%N.
Definition DQUOTE : codepoint := 34%N.

Definition in_range (lo hi c : N) : bool := ((lo <=? c) && (c <=? hi))%N.

(** [Py_UNICODE_ISSPACE]: the characters removed by [str.strip()] and
    matched by [\s] in a [str] pattern. *)
Definition is_space (c : codepoint) : bool :=
  in_range 9 13 c || in_range 28 32 c || (c =? 133)%N || (c =? 160)%N
  || (c =? 5760)%N || in_range 8192 8202 c || (c =? 8232)%N || (c =? 8233)%N
  || (c =? 8239)%N || (c =? 8287)%N || (c =? 12288)%N.

Definition ascii_alnum (c : codepoint) : bool :=
  in_range 48 57 c || in_range 65 90 c || in_range 97 122 c.

(** [str.lstrip()], [str.rstrip()], [str.strip()]. *)
Fixpoint lstrip (s : str) : str :=
  match s with
  | [] => []
  | c :: s' => if is_space c then lstrip s' else s
  end.

Definition rstrip (s : str) : str := rev (lstrip (rev s)).

Definition strip (s : str) : str := rstrip (lstrip s).

(** A string that does not start with white space. *)
Definition head_ok (s : str) : Prop :=
  match s with
  | [] => True
  | c :: _ => is_space c = false
  end.

(** A string without white space at either end. *)
Definition trimmed (s : str) : Prop := head_ok s /\ head_ok (rev s).

(** Truthiness of a [str]: the empty string is false. *)
Definition truthy (s : str) : bool :=
  match s with [] => false | _ => true end.

(** [sep.join(parts)]. *)
Fixpoint join (sep : str) (parts : list str) : str :=
  match parts with
  | [] => []
  | [p] => p
  | p :: ps => p ++ sep ++ join sep ps
  end.

(** [s.replace(' ', '_')]. *)
Definition replace_space (s : str) : str :=
  map (fun c => if (c =? SPACE)%N then UNDERSCORE else c) s.

(** [s.split("\n")]: the lines of [s]; never empty. *)
Fixpoint split_lines (s : str) : list str :=
  match s with
  | [] => [[]]
  | c :: s' =>
      if (c =? LF)%N then [] :: split_lines s'
      else match split_lines s' with
           | [] => [[c]]
           | l :: ls => (c :: l) :: ls
           end
  end.

(** What a text-mode read returns for the stored text ([newline=None]):
    CR LF and a lone CR come back as LF. *)
Fixpoint universal_newlines (s : str) : str :=
  match s with
  | [] => []
  | c :: s' =>
      if (c =? CR)%N then
        LF :: match s' with
              | [] => []
              | c' :: s'' => if (c' =? LF)%N then universal_newlines s''
                             else universal_newlines s'
              end
      else c :: universal_newlines s'
  end.

(** ** Prompt templates

    [ChatPromptTemplate.from_template] parses a format string; every
    template of the repository has literal text around one placeholder. *)
Inductive piece : Type :=
  | Lit (s : str)
  | Placeholder.

Definition template : Type := list piece.

(** Rendering with the value of the single input variable. *)
Definition render (t : template) (value : str) : str :=
  concat (map (fun p => match p with Lit s => s | Placeholder => value end) t).

(** ** Exceptions and the effect monad *)

Inductive exn : Type :=
  | RuntimeError (msg : str)
  | FileNotFoundError (path : str)
  | OSError (msg : str)
  | ServiceError (msg : str).

(** [str(e)] as interpolated by an f-string. *)
Definition exn_str (e : exn) : str :=
  match e with
  | RuntimeError m | OSError m | ServiceError m => m
  | FileNotFoundError p => u "[Errno 2] No such file or directory: '" ++ p ++ u "'"
  end.

Definition result (A : Type) : Type := (exn + A)%type.

(** Whether a call returned. *)
Definition answered {A} (r : result A) : bool :=
  match r with inr _ => true | inl _ => false end.

Definition M (S A : Type) : Type := S -> result A * S.

Definition ret {S A} (a : A) : M S A := fun s => (inr a, s).

Definition raise {S A} (e : exn) : M S A := fun s => (inl e, s).

Definition bind {S A B} (m : M S A) (k : A -> M S B) : M S B :=
  fun s => match m s with
           | (inr a, s') => k a s'
           | (inl e, s') => (inl e, s')
           end.

(** [try: body  except Exception as e: handler e]. *)
Definition try_except {S A} (body : M S A) (handler : exn -> M S A) : M S A :=
  fun s => match body s with
           | (inr a, s') => (inr a, s')
           | (inl e, s') => handler e s'
           end.

Definition get {S} : M S S := fun s => (inr s, s).
Definition modify {S} (f : S -> S) : M S unit := fun s => (inr tt, f s).

Notation "'let*' x ':=' c 'in' k" := (bind c (fun x => k))
  (at level 10, x name, c at level 100, k at level 200).

(** ** The world outside the process *)

Record World : Type := mkWorld {
  fs : gmap str str;            (* path -> content of the text files *)
  llm_calls : list str;         (* rendered prompts sent to the model *)
  renames : list (str * str);   (* os.rename attempts, oldest first *)
}.

Definition empty_world : World := mkWorld ∅ [] [].

Definition file_content (w : World) (path : str) : str :=
  default [] (fs w !! path).

Definition set_fs (f : gmap str str) (w : World) : World :=
  mkWorld f (llm_calls w) (renames w).

(** [with open(path, "w") as f: f.write(data)]. *)
Definition write_file (path data : str) (w : World) : World :=
  set_fs (<[path := data]> (fs w)) w.

(** [with open(path, "a") as f: f.write(data)]. *)
Definition append_file (path data : str) (w : World) : World :=
  set_fs (<[path := file_content w path ++ data]> (fs w)) w.

(** [with open(path, "r") as f: f.read()]: a text-mode read, with
    universal newlines. *)
Definition read_file (path : str) : M World str :=
  fun w => match fs w !! path with
           | Some c => (inr (universal_newlines c), w)
           | None => (inl (FileNotFoundError path), w)
           end.

Definition log_call (prompt : str) (w : World) : World :=
  mkWorld (fs w) (llm_calls w ++ [prompt]) (renames w).

Definition log_rename (src dst : str) (w : World) : World :=
  mkWorld (fs w) (llm_calls w) (renames w ++ [(src, dst)]).

(** POSIX [os.path.join] of two components. *)
Definition path_join (a b : str) : str :=
  match b with
  | 47%N :: _ => b
  | _ => match a with
         | [] => b
         | _ => if decide (last a = Some 47%N) then a ++ b else a ++ u "/" ++ b
         end
  end.

(** ** src/text_processor.py *)
Module TextProcessor.

Definition PROMPTS_clean : template :=
  [Lit (u "You are a dictation assistant. Clean up the following speech transcription:
- Remove filler words (um, uh, like, you know, so, basically, actually)
- Fix grammar and punctuation
- Keep the original meaning and tone
- Do NOT add any extra content or explanations
- Output ONLY the cleaned text, nothing else

Transcription: "); Placeholder; Lit (u "

Cleaned text:")].

Definition PROMPTS_rewrite : template :=
  [Lit (u "You are a writing assistant. Rewrite the following text to be clearer and more professional:
- Improve clarity and flow
- Fix any grammar issues
- Maintain the core message
- Output ONLY the rewritten text, nothing else

Original: "); Placeholder; Lit (u "

Rewritten:")].

Definition PROMPTS_bullets : template :=
  [Lit (u "Convert the following text into bullet points:
- Extract key points
- Use clear, concise language
- Output ONLY the bullet points, nothing else

Text: "); Placeholder; Lit (u "

Bullet points:")].

Definition PROMPTS_email : template :=
  [Lit (u "Format the following as a professional email:
- Add appropriate greeting and closing
- Keep it concise and professional
- Output ONLY the email, nothing else

Content: "); Placeholder; Lit (u "

Email:")].

(** The table [PROMPTS]; the value of ["raw"] is [None]. *)
Definition PROMPTS : gmap str (option template) :=
  list_to_map
    [ (u "clean", Some PROMPTS_clean);
      (u "rewrite", Some PROMPTS_rewrite);
      (u "bullets", Some PROMPTS_bullets);
      (u "email", Some PROMPTS_email);
      (u "raw", None) ].

(** A deterministic stub of the service: every prompt gets the same
    answer, whole from [invoke] and in two chunks from [stream]. *)
Definition stub_invoke : str -> result str :=
  fun _ => inr (u " Hi there. ").
Definition stub_stream : str -> list str * option exn :=
  fun _ => ([u " Hi"; u " there. "], None).

Section Processor.

(** The completion service behind [chain.invoke] and [chain.stream]: the
    text for a rendered prompt, or an exception; a stream is the chunks it
    yields and the exception that ends it, if any. *)
Variable ollama_invoke : str -> result str.
Variable ollama_stream : str -> list str * option exn.

Definition chain_invoke (prompt : str) : M World str :=
  fun w => (ollama_invoke prompt, log_call prompt w).

(** A generator: the chunks yielded and how the iteration ended. *)
Definition Gen : Type := World -> (list str * option exn) * World.

Definition chain_stream (prompt : str) : Gen :=
  fun w => (ollama_stream prompt, log_call prompt w).

Definition blank (text : str) : bool :=
  negb (truthy text) || negb (truthy (strip text)).

Definition process (text mode : str) : M World str :=
  if blank text then ret []
  else if decide (mode = u "raw") then ret (strip text)
  else match PROMPTS !! mode with
       | None => ret (strip text)
       | Some None => ret (strip text)
       | Some (Some prompt_template) =>
           let* result := chain_invoke (render prompt_template text) in
           ret (strip result)
       end.

Definition process_stream (text mode : str) : Gen :=
  if blank text then fun w => (([], None), w)
  else if decide (mode = u "raw") then fun w => (([strip text], None), w)
  else match PROMPTS !! mode with
       | None => fun w => (([strip text], None), w)
       | Some None => fun w => (([strip text], None), w)
       | Some (Some prompt_template) =>
           chain_stream (render prompt_template text)
       end.

(** A deterministic service: streaming a prompt yields chunks whose
    concatenation is the text that the synchronous call returns, and ends
    with the exception that the synchronous call raises, if it raises. *)
Definition deterministic_service : Prop :=
  forall prompt,
    ollama_invoke prompt
    = match ollama_stream prompt with
      | (chunks, None) => inr (concat chunks)
      | (_, Some e) => inl e
      end.

(** The modes that bypass the model. *)
Definition bypass (mode : str) : Prop :=
  mode = u "raw" \/ PROMPTS !! mode = None.

End Processor.

End TextProcessor.

(** ** src/document_editor.py *)
Module DocumentEditor.

Definition EDIT_PROMPTS_organize : template :=
  [Lit (u "You are a document editor. Organize and structure the following raw notes into a coherent document.

Instructions:
- Group related thoughts together
- Add clear section headers where appropriate
- Remove duplicate ideas
- Keep the original voice and meaning
- Do NOT add new content, only organize what exists
- Output ONLY the organized document, no explanations

Raw Notes:
"); Placeholder; Lit (u "

Organized Document:")].

Definition EDIT_PROMPTS_professional : template :=
  [Lit (u "You are a professional editor. Transform these rough notes into a polished, professional document.

Instructions:
- Improve clarity and flow
- Fix grammar and punctuation
- Use professional language
- Maintain the core message and ideas
- Structure with clear sections if needed
- Output ONLY the final document, no explanations

Raw Notes:
"); Placeholder; Lit (u "

Professional Document:")].

Definition EDIT_PROMPTS_summarize : template :=
  [Lit (u "You are a document summarizer. Create a concise summary of the following notes.

Instructions:
- Extract the key points and main ideas
- Present as a clear, readable summary
- Use bullet points for main takeaways
- Keep it under 200 words
- Output ONLY the summary, no explanations

Notes:
"); Placeholder; Lit (u "

Summary:")].

Definition EDIT_PROMPTS_action_items : template :=
  [Lit (u "You are a task extractor. Extract all action items and to-dos from the following notes.

Instructions:
- Find all tasks, action items, and things to do
- List each as a clear, actionable item
- Include any deadlines or assignees mentioned
- Use checkbox format: - [ ] Task
- Output ONLY the action items list, no explanations

Notes:
"); Placeholder; Lit (u "

Action Items:")].

Definition EDIT_PROMPTS : gmap str template :=
  list_to_map
    [ (u "organize", EDIT_PROMPTS_organize);
      (u "professional", EDIT_PROMPTS_professional);
      (u "summarize", EDIT_PROMPTS_summarize);
      (u "action_items", EDIT_PROMPTS_action_items) ].

(** [DocumentState], the state of the editing graph. *)
Record DocumentState : Type := mkDocumentState {
  content : str;
  edit_mode : str;
  result_ : str;               (* the key "result" *)
}.

(** A completion stub that answers every prompt with the same text. *)
Definition constant_service (answer : str) : str -> result str :=
  fun _ => inr answer.

Section Editor.

Variable ollama_invoke : str -> result str.

Definition chain_invoke (prompt : str) : M World str :=
  fun w => (ollama_invoke prompt, log_call prompt w).

(** The node [edit_document]; it returns the update [{"result": r}]. *)
Definition edit_document (state : DocumentState) : M World str :=
  let mode := edit_mode state in
  let content := content state in
  match EDIT_PROMPTS !! mode with
  | None => ret content
  | Some prompt_template =>
      let* result := chain_invoke (render prompt_template content) in
      ret (strip result)
  end.

(** [self.graph.invoke]: START -> editor -> END; the node's update
    replaces the key it names. *)
Definition graph_invoke (state : DocumentState) : M World DocumentState :=
  let* r := edit_document state in
  ret (mkDocumentState (content state) (edit_mode state) r).

Definition edit (content mode : str) : M World str :=
  let* result := graph_invoke (mkDocumentState content mode []) in
  ret (result_ result).

End Editor.

End DocumentEditor.

(** ** src/transcriber.py *)
Module Transcriber.

(** What the speech engine does during one call of [recorder.text()]: the
    partial transcripts it reports, then the text, [None], or an
    exception. *)
Record Utterance : Type := mkUtterance {
  partials : list str;
  final : result (option str);
}.

(** The engine object; [engine_id] tells instances apart. *)
Record AudioToTextRecorder : Type := mkRecorder {
  engine_id : nat;
  engine_model : str;
  engine_device : str;
}.

(** The object's attributes. [on_live_update] is [Some k] for the
    callback [k], whose calls are recorded in the state of the caller. *)
Record Transcriber : Type := mkTranscriber {
  model : str;
  device : str;
  recorder : option AudioToTextRecorder;
  _is_recording : bool;
  _transcription : str;
  _last_displayed : str;
  _on_live_update : option nat;
}.

(** The process as the transcriber sees it. *)
Record Process : Type := mkProcess {
  self : Transcriber;
  callback_log : list (nat * str);   (* calls of external handlers *)
  shut_down : list nat;              (* engines shut down *)
  utterances : list Utterance;       (* what the engine will hear *)
}.

Definition set_self (t : Transcriber) (p : Process) : Process :=
  mkProcess t (callback_log p) (shut_down p) (utterances p).

Definition __init__ (model device : str) (on_live_update : option nat)
  : Transcriber :=
  mkTranscriber model device None false [] [] on_live_update.

Definition record_error : exn :=
  RuntimeError (u "Transcriber not started. Call start() first.").

Definition _on_transcription (text : str) : M Process unit :=
  fun p =>
    let t := self p in
    let t' := mkTranscriber (model t) (device t) (recorder t) (_is_recording t)
                text (_last_displayed t) (_on_live_update t) in
    match _on_live_update t with
    | Some k => (inr tt, mkProcess t' (callback_log p ++ [(k, text)])
                           (shut_down p) (utterances p))
    | None => (inr tt, set_self t' p)
    end.

Section Engine.

(** Construction of the engine: it can fail. *)
Variable new_recorder : str -> str -> result AudioToTextRecorder.

Definition start : M Process unit :=
  fun p =>
    let t := self p in
    match new_recorder (model t) (device t) with
    | inl e => (inl e, p)
    | inr r => (inr tt, set_self (mkTranscriber (model t) (device t) (Some r)
                 (_is_recording t) (_transcription t) (_last_displayed t)
                 (_on_live_update t)) p)
    end.

Definition stop : M Process unit :=
  fun p =>
    match recorder (self p) with
    | Some r => (inr tt, mkProcess (self p) (callback_log p)
                           (shut_down p ++ [engine_id r]) (utterances p))
    | None => (inr tt, p)
    end.

Fixpoint deliver (ps : list str) : M Process unit :=
  match ps with
  | [] => ret tt
  | t :: ps' => let* _ := _on_transcription t in deliver ps'
  end.

(** [self.recorder.text()]: the engine consumes the next utterance and
    reports its partial transcripts through the registered callback. *)
Definition recorder_text : M Process (option str) :=
  fun p =>
    match utterances p with
    | [] => (inr None, p)
    | utt :: rest =>
        let p' := mkProcess (self p) (callback_log p) (shut_down p) rest in
        match deliver (partials utt) p' with
        | (inr _, p'') => (final utt, p'')
        | (inl e, p'') => (inl e, p'')
        end
    end.

Definition record : M Process str :=
  let* p := get in
  match recorder (self p) with
  | None => raise record_error
  | Some _ =>
      let* _ := modify (fun p =>
        let t := self p in
        set_self (mkTranscriber (model t) (device t) (recorder t)
                    (_is_recording t) [] [] (_on_live_update t)) p) in
      let* text := recorder_text in
      match text with
      | Some text => if truthy text then ret (strip text) else ret []
      | None => ret []
      end
  end.

Definition live_text : M Process str :=
  let* p := get in ret (_transcription (self p)).

(** The calls a client can make on the object other than [start]. *)
Inductive call : Type :=
  | CallStop
  | CallRecord
  | CallLiveText
  | CallOnTranscription (text : str).

(** One call; the client catches whatever it raises and goes on. *)
Definition perform (c : call) (p : Process) : Process :=
  match c with
  | CallStop => snd (stop p)
  | CallRecord => snd (record p)
  | CallLiveText => snd (live_text p)
  | CallOnTranscription text => snd (_on_transcription text p)
  end.

Definition perform_all (cs : list call) (p : Process) : Process :=
  foldl (fun p c => perform c p) p cs.

End Engine.

End Transcriber.

(** ** src/session_manager.py *)
Module SessionManager.

(** A reading of [datetime.now()]. *)
Record DateTime : Type := mkDateTime {
  year : N; month : N; day : N; hour : N; minute : N; second : N;
}.

Definition digit (n : N) : codepoint := (48 + n mod 10)%N.
Definition pad2 (n : N) : str := [digit (n / 10); digit n].
Definition pad4 (n : N) : str :=
  [digit (n / 1000); digit (n / 100); digit (n / 10); digit n].

(** [strftime("%Y-%m-%d_%H-%M")], for years of four digits. *)
Definition strftime_file (t : DateTime) : str :=
  pad4 (year t) ++ u "-" ++ pad2 (month t) ++ u "-" ++ pad2 (day t)
  ++ u "_" ++ pad2 (hour t) ++ u "-" ++ pad2 (minute t).

(** [strftime("%Y-%m-%d %H:%M")]. *)
Definition strftime_minute (t : DateTime) : str :=
  pad4 (year t) ++ u "-" ++ pad2 (month t) ++ u "-" ++ pad2 (day t)
  ++ u " " ++ pad2 (hour t) ++ u ":" ++ pad2 (minute t).

(** [strftime("%H:%M:%S")]. *)
Definition strftime_clock (t : DateTime) : str :=
  pad2 (hour t) ++ u ":" ++ pad2 (minute t) ++ u ":" ++ pad2 (second t).

(** An element of [self.transcriptions]. *)
Record Entry : Type := mkEntry {
  time : str;
  raw : str;
  cleaned : str;
}.

Record SessionManager : Type := mkSessionManager {
  output_dir : str;
  session_start : DateTime;
  transcriptions : list Entry;
  title : str;
  filepath : str;
}.

(** The object together with the world it acts on. *)
Record State : Type := mkState {
  world : World;
  self : SessionManager;
}.

Definition lift {A} (m : M World A) : M State A :=
  fun st => let (r, w) := m (world st) in (r, mkState w (self st)).

Definition effect (f : World -> World) : M State unit :=
  modify (fun st => mkState (f (world st)) (self st)).

Definition update (f : SessionManager -> SessionManager) : M State unit :=
  modify (fun st => mkState (world st) (f (self st))).

Definition get_self : M State SessionManager :=
  fun st => (inr (self st), st).

Definition set_title (t : str) (s : SessionManager) : SessionManager :=
  mkSessionManager (output_dir s) (session_start s) (transcriptions s) t
    (filepath s).

Definition set_filepath (p : str) (s : SessionManager) : SessionManager :=
  mkSessionManager (output_dir s) (session_start s) (transcriptions s)
    (title s) p.

Definition append_entry (e : Entry) (s : SessionManager) : SessionManager :=
  mkSessionManager (output_dir s) (session_start s) (transcriptions s ++ [e])
    (title s) (filepath s).

(** [a or b] for an optional string [a]. *)
Definition or_else (a : option str) (b : str) : str :=
  match a with
  | Some a => if truthy a then a else b
  | None => b
  end.

Definition placeholder_title : str := u "Untitled Session".

(** The header written by [_create_session_file]. *)
Definition header_rest (start : DateTime) : str :=
  [LF] ++ u "**Session Started:** " ++ strftime_minute start ++ [LF; LF]
  ++ u "---" ++ [LF; LF] ++ u "## Raw Transcription" ++ [LF; LF].

Definition header (title : str) (start : DateTime) : str :=
  u "# " ++ title ++ [LF] ++ header_rest start.

(** The block written for one entry. *)
Definition entry_block (timestamp entry : str) : str :=
  u "**[" ++ timestamp ++ u "]** " ++ entry ++ [LF; LF].

Definition title_template : template :=
  [Lit (u "Generate a short, descriptive title (3-6 words) for a document that starts with:
" ++ [DQUOTE]); Placeholder; Lit ([DQUOTE] ++ u "

Output ONLY the title, nothing else. No quotes, no punctuation at the end.

Title:")].

Definition organize_template : template :=
  [Lit (u "Organize and structure the following notes into a clear, readable document.
- Group related ideas together
- Add section headers if appropriate
- Remove redundancy
- Keep the original voice

Notes:
"); Placeholder; Lit (u "

Organized document:")].

Definition summary_header : str :=
  [LF] ++ u "---" ++ [LF; LF] ++ u "## Organized Summary" ++ [LF; LF].

Definition footer (now : DateTime) : str :=
  [LF; LF] ++ u "---" ++ [LF; LF] ++ u "*Session ended: "
  ++ strftime_minute now ++ u "*" ++ [LF].

(** A line that [^# .+$] matches: "# " and at least one more character. *)
Definition is_heading (line : str) : bool :=
  match line with
  | 35%N :: 32%N :: _ :: _ => true
  | _ => false
  end.

Fixpoint sub_first_heading (repl : str) (lines : list str) : list str :=
  match lines with
  | [] => []
  | l :: ls => if is_heading l then repl :: ls
               else l :: sub_first_heading repl ls
  end.

(** [re.sub(r'^# .+$', repl, content, count=1, flags=re.MULTILINE)] for a
    replacement without backslash (no escape to expand): the first line
    that the pattern matches is replaced as a whole. *)
Definition re_sub_heading (repl content : str) : str :=
  join [LF] (sub_first_heading repl (split_lines content)).

(** Stubs of the environment used to run the model on examples. *)
Definition no_unicode_alnum : codepoint -> bool := fun _ => false.
Definition service_returns (answer : str) : str -> result str :=
  fun _ => inr answer.
Definition service_down : str -> result str :=
  fun _ => inl (ServiceError (u "connection refused")).
Definition rename_allowed : World -> str -> str -> option exn :=
  fun _ _ _ => None.
(** A system that refuses a rename onto a name that is taken. *)
Definition rename_refuses_taken : World -> str -> str -> option exn :=
  fun w _ dst => match fs w !! dst with
                 | Some _ => Some (OSError (u "[Errno 17] File exists"))
                 | None => None
                 end.
Definition new_year_10am : DateTime := mkDateTime 2024 1 1 10 0 0.
Definition new_year_10_05 : DateTime := mkDateTime 2024 1 1 10 5 7.

Section Session.

(** The Unicode database's alphanumeric test for code points from 128. *)
Variable unicode_alnum : codepoint -> bool.
(** The completion service behind [chain.invoke]. *)
Variable ollama_invoke : str -> result str.
(** The operating system's refusal of a rename, if any. *)
Variable os_rename_error : World -> str -> str -> option exn.
(** The module constant [OUTPUT_DIR], read from the environment. *)
Variable OUTPUT_DIR : str.

(** [\w] of a [str] pattern. *)
Definition is_word (c : codepoint) : bool :=
  if (c <? 128)%N then ascii_alnum c || (c =? UNDERSCORE)%N
  else unicode_alnum c.

Definition kept (c : codepoint) : bool :=
  is_word c || is_space c || (c =? HYPHEN)%N.

(** [re.sub(r'[^\w\s-]', '', s)]. *)
Definition sanitize (s : str) : str := List.filter kept s.

Definition chain_invoke (prompt : str) : M World str :=
  fun w => (ollama_invoke prompt, log_call prompt w).

(** [os.rename(src, dst)]; an existing destination file is replaced. *)
Definition os_rename (src dst : str) : M World unit :=
  fun w =>
    let w1 := log_rename src dst w in
    match os_rename_error w src dst with
    | Some e => (inl e, w1)
    | None =>
        match fs w !! src with
        | None => (inl (FileNotFoundError src), w1)
        | Some c => (inr tt, set_fs (<[dst := c]> (delete src (fs w))) w1)
        end
    end.

Definition _create_session_file : M State unit :=
  let* s := get_self in
  let timestamp := strftime_file (session_start s) in
  let filename := timestamp ++ u "_session.md" in
  let* _ := update (set_filepath (path_join (output_dir s) filename)) in
  let* s := get_self in
  effect (write_file (filepath s) (header (title s) (session_start s))).

(** [SessionManager(output_dir)] at the clock reading [now]; the
    directory is taken to exist or to be created without error. *)
Definition __init__ (dir : option str) (now : DateTime) (w : World) : State :=
  let s := mkSessionManager (or_else dir OUTPUT_DIR) now [] placeholder_title [] in
  snd (_create_session_file (mkState w s)).

Definition _update_file_title : M State unit :=
  let* s := get_self in
  let* content := lift (read_file (filepath s)) in
  let content := re_sub_heading (u "# " ++ title s) content in
  let* _ := effect (write_file (filepath s) content) in
  let timestamp := strftime_file (session_start s) in
  let safe_title := take 30 (replace_space (sanitize (title s))) in
  let new_filename := timestamp ++ u "_" ++ safe_title ++ u ".md" in
  let new_filepath := path_join (output_dir s) new_filename in
  try_except
    (let* _ := lift (os_rename (filepath s) new_filepath) in
     update (set_filepath new_filepath))
    (fun _ => ret tt).

Definition _generate_title (first_text : str) : M State unit :=
  try_except
    (let* t := lift (chain_invoke (render title_template (take 200 first_text))) in
     let* _ := update (set_title (strip t)) in
     let* s := get_self in
     let* _ := update (set_title (take 50 (sanitize (title s)))) in
     _update_file_title)
    (fun _ => ret tt).

Definition add_transcription (now : DateTime) (text : str)
    (cleaned_text : option str) : M State unit :=
  let timestamp := strftime_clock now in
  let entry := or_else cleaned_text text in
  let* _ := update (append_entry (mkEntry timestamp text (or_else cleaned_text text))) in
  let* s := get_self in
  let* _ := effect (append_file (filepath s) (entry_block timestamp entry)) in
  let* s := get_self in
  if decide (length (transcriptions s) = 1) then _generate_title entry
  else ret tt.

Definition finalize (now : DateTime) (organize : bool) : M State (option str) :=
  let* s := get_self in
  match transcriptions s with
  | [] => ret None
  | _ =>
      let all_text := join [LF] (map cleaned (transcriptions s)) in
      let* _ := effect (append_file (filepath s) summary_header) in
      let* _ :=
        if organize then
          try_except
            (let* organized := lift (chain_invoke (render organize_template all_text)) in
             effect (append_file (filepath s) (strip organized)))
            (fun e => effect (append_file (filepath s)
               (u "(Organization failed: " ++ exn_str e ++ u ")" ++ [LF; LF] ++ all_text)))
        else effect (append_file (filepath s) all_text) in
      let* _ := effect (append_file (filepath s) (footer now)) in
      ret (Some (filepath s))
  end.

(** The content of the session's backing file. *)
Definition session_content (st : State) : str :=
  file_content (world st) (filepath (self st)).

(** A run of [add_transcription] calls; it stops at the first exception. *)
Fixpoint add_all (calls : list (DateTime * str * option str)) : M State unit :=
  match calls with
  | [] => ret tt
  | (now, text, cleaned_text) :: rest =>
      let* _ := add_transcription now text cleaned_text in add_all rest
  end.

(** The entry that a call of [add_transcription] records. *)
Definition entry_of (now : DateTime) (text : str) (cleaned_text : option str)
  : Entry :=
  mkEntry (strftime_clock now) text (or_else cleaned_text text).

(** The block it writes. *)
Definition block_of (now : DateTime) (text : str) (cleaned_text : option str)
  : str :=
  entry_block (strftime_clock now) (or_else cleaned_text text).

(** The prompt of the title inference for a first entry. *)
Definition title_prompt (text : str) (cleaned_text : option str) : str :=
  render title_template (take 200 (or_else cleaned_text text)).

(** The path of a new session and the path it is renamed to when the
    model answers [t]. *)
Definition provisional_path (dir : option str) (start : DateTime) : str :=
  path_join (or_else dir OUTPUT_DIR) (strftime_file start ++ u "_session.md").

Definition inferred_title (t : str) : str := take 50 (sanitize (strip t)).

Definition titled_path (dir : option str) (start : DateTime) (t : str) : str :=
  path_join (or_else dir OUTPUT_DIR)
    (strftime_file start ++ u "_"
     ++ take 30 (replace_space (inferred_title t)) ++ u ".md").

(** What [finalize] writes between the section header and the footer. *)
Definition summary_body (organize : bool) (all_text : str) : str :=
  if organize then
    match ollama_invoke (render organize_template all_text) with
    | inr organized => strip organized
    | inl e => u "(Organization failed: " ++ exn_str e ++ u ")" ++ [LF; LF]
               ++ all_text
    end
  else all_text.

(** The world of a new session once the first entry's block is appended
    and the title call is made. *)
Definition titling_world (dir : option str) (start : DateTime) (w : World)
    (now : DateTime) (text : str) (cleaned_text : option str) : World :=
  let p0 := provisional_path dir start in
  log_call (title_prompt text cleaned_text)
    (append_file p0 (block_of now text cleaned_text)
       (write_file p0 (header placeholder_title start) w)).

(** What [_update_file_title] writes back when the model answers [t]: the
    heading with the title, and the rest of the file as the text-mode
    read returned it. *)
Definition retitled_content (start now : DateTime) (text : str)
    (cleaned_text : option str) (t : str) : str :=
  u "# " ++ inferred_title t ++ [LF] ++ header_rest start
  ++ universal_newlines (block_of now text cleaned_text).

(** The world in which [os.rename] is then called. *)
Definition rename_world (dir : option str) (start : DateTime) (w : World)
    (now : DateTime) (text : str) (cleaned_text : option str) (t : str)
  : World :=
  write_file (provisional_path dir start)
    (retitled_content start now text cleaned_text t)
    (titling_world dir start w now text cleaned_text).

(** The state that the first [add_transcription] of a new session leaves,
    by the answer of the model and of the operating system. *)
Definition after_first_add (dir : option str) (start : DateTime) (w : World)
    (now : DateTime) (text : str) (cleaned_text : option str) : State :=
  let d := or_else dir OUTPUT_DIR in
  let p0 := provisional_path dir start in
  let e := entry_of now text cleaned_text in
  let prompt := title_prompt text cleaned_text in
  let w1 := titling_world dir start w now text cleaned_text in
  match ollama_invoke prompt with
  | inl _ => mkState w1 (mkSessionManager d start [e] placeholder_title p0)
  | inr t =>
      let ti := inferred_title t in
      let p1 := titled_path dir start t in
      let content := retitled_content start now text cleaned_text t in
      let w2 := rename_world dir start w now text cleaned_text t in
      match os_rename_error w2 p0 p1 with
      | Some _ => mkState (log_rename p0 p1 w2)
                    (mkSessionManager d start [e] ti p0)
      | None => mkState (set_fs (<[p1 := content]> (delete p0 (fs w2)))
                           (log_rename p0 p1 w2))
                  (mkSessionManager d start [e] ti p1)
      end
  end.

(** A document on which the later operations work: every
    [add_transcription] returns and appends its block to the backing
    file, every [finalize] returns the path and appends the summary
    section. *)
Definition functions_normally (st : State) : Prop :=
  (forall now text cleaned_text,
     let r := add_transcription now text cleaned_text st in
     fst r = inr tt
     /\ transcriptions (self (snd r))
        = transcriptions (self st) ++ [entry_of now text cleaned_text]
     /\ session_content (snd r)
        = session_content st ++ block_of now text cleaned_text)
  /\ (forall fin organize,
        let r := finalize fin organize st in
        fst r = inr (Some (filepath (self st)))
        /\ session_content (snd r)
           = session_content st ++ summary_header
             ++ summary_body organize
                  (join [LF] (map cleaned (transcriptions (self st))))
             ++ footer fin).

End Session.

(** The scenario of the specification: a session created on 2024-01-01
    at 10:00 in the directory "sessions", a first entry, and the title
    service answering "Greeting Note". *)
Definition scenario_start : State :=
  __init__ (u "sessions") None new_year_10am empty_world.

Definition scenario_add (answer : result str) (st : State) (text cleaned_text : str)
  : result unit * State :=
  add_transcription no_unicode_alnum (fun _ => answer) rename_allowed
    new_year_10_05 text (Some cleaned_text) st.

Definition scenario_titled : State :=
  snd (scenario_add (inr (u "Greeting Note")) scenario_start
         (u "um hi there") (u "Hi there.")).

Definition scenario_two_entries : State :=
  snd (scenario_add (inr (u "Greeting Note")) scenario_titled
         (u "uh bye for now") (u "Bye for now.")).

(** An answer of the title service that spans two lines. *)
Definition two_line_answer : str := u "Greeting" ++ [LF] ++ u "Note".

(** A cleaned text with a carriage return between its two words. *)
Definition carriage_return_entry : str := u "Hi" ++ [CR] ++ u "there.".

(** A world in which the name of the titled scenario file is taken. *)
Definition name_taken_world : World :=
  write_file (u "sessions/2024-01-01_10-00_Greeting_Note.md") (u "taken")
    empty_world.

End SessionManager.

(** ** src/transcriber.py: what a recording leaves *)
Module Recording.

Import Transcriber.

(** The text that [record] returns for what the engine heard. *)
Definition heard (utt : Utterance) : result str :=
  match final utt with
  | inr (Some text) => inr (strip text)
  | inr None => inr []
  | inl e => inl e
  end.

(** The calls of the external handler for the partial transcripts [ps]. *)
Definition handler_calls (handler : option nat) (ps : list str)
  : list (nat * str) :=
  match handler with
  | Some k => map (fun t => (k, t)) ps
  | None => []
  end.

(** An engine, an utterance with three partial transcripts, a started
    transcriber that still shows the text of an earlier utterance, and an
    engine constructor that fails. *)
Definition demo_engine : AudioToTextRecorder :=
  mkRecorder 1 (u "medium.en") (u "cuda").

Definition demo_utterance : Utterance :=
  mkUtterance [u "hi"; u "hi the"; u "hi there"] (inr (Some (u " hi there "))).

Definition demo_started : Process :=
  mkProcess
    (mkTranscriber (u "medium.en") (u "cuda") (Some demo_engine) false
       (u "an earlier text") [] (Some 7))
    [] [] [demo_utterance].

Definition no_engine : str -> str -> result AudioToTextRecorder :=
  fun _ _ => inl (OSError (u "no CUDA device")).

End Recording.

(** The modes whose template is sent to the model. *)
Definition model_modes : list str :=
  [u "clean"; u "rewrite"; u "bullets"; u "email"].

(** ** src/session_manager.py: the session file as a whole *)
Module SessionFormat.

Import SessionManager.

(** The blocks of a list of entries, as [add_transcription] writes them. *)
Definition blocks (es : list Entry) : str :=
  concat (map (fun e => entry_block (time e) (cleaned e)) es).

(** The entry recorded by one call of a run of [add_transcription]. *)
Definition recorded (c : DateTime * str * option str) : Entry :=
  let '(now, text, cleaned_text) := c in entry_of now text cleaned_text.

(** A block as the file holds it: read back in text mode and rewritten
    by the title update when [reread] holds, as appended otherwise. *)
Definition stored_block (reread : bool) (block : str) : str :=
  if reread then universal_newlines block else block.

(** The blocks of the entries as the file holds them: only the first
    entry's block is there when the title update rewrites the file. *)
Definition stored_blocks (reread : bool) (es : list Entry) : str :=
  match es with
  | [] => []
  | e :: es' => stored_block reread (entry_block (time e) (cleaned e))
                ++ blocks es'
  end.

(** Whether the title inference of a run of [add_transcription] calls on
    a new session answered. *)
Definition first_answered (ollama_invoke : str -> result str)
    (calls : list (DateTime * str * option str)) : bool :=
  match calls with
  | [] => false
  | (_, text, cleaned_text) :: _ =>
      answered (ollama_invoke (title_prompt text cleaned_text))
  end.

(** [strftime("%Y-%m-%d")]. *)
Definition strftime_day (t : DateTime) : str :=
  pad4 (year t) ++ u "-" ++ pad2 (month t) ++ u "-" ++ pad2 (day t).

(** The characters that a file name made from a title never holds: the
    path separator, the dot, the backslash, the space and [NUL]. *)
Definition plain_name_char (c : codepoint) : Prop :=
  c <> 47%N /\ c <> 46%N /\ c <> BACKSLASH /\ c <> SPACE /\ c <> 0%N.

(** The base name of the renamed session file for the title [title]. *)
Definition titled_name (start : DateTime) (title : str) : str :=
  strftime_file start ++ u "_" ++ take 30 (replace_space title) ++ u ".md".

End SessionFormat.

(** ** src/document_editor.py: editing a file *)
Module EditFile.

Import DocumentEditor.

(** The provenance header that [edit_file] writes before the edited text. *)
Definition provenance (now : SessionManager.DateTime) (mode : str) : str :=
  u "# Document edited: " ++ SessionManager.strftime_minute now ++ [LF]
  ++ u "# Edit mode: " ++ mode ++ [LF; LF].

(** Truthiness of an optional string: [None] and the empty string are
    false. *)
Definition given (o : option str) : bool :=
  match o with
  | Some s => truthy s
  | None => false
  end.

Definition backup_path (filepath : str) : str := filepath ++ u ".backup".

Section Editor.

Variable ollama_invoke : str -> result str.

(** What [edit] returns for a content and a mode. *)
Definition edit_outcome (content mode : str) : result str :=
  match EDIT_PROMPTS !! mode with
  | None => inr content
  | Some t => match ollama_invoke (render t content) with
              | inr r => inr (strip r)
              | inl e => inl e
              end
  end.

(** The world after [edit]: the call, if one is made, is recorded. *)
Definition edit_world (content mode : str) (w : World) : World :=
  match EDIT_PROMPTS !! mode with
  | None => w
  | Some t => log_call (render t content) w
  end.

(** [DocumentEditor.edit_file] at the clock reading [now]. *)
Definition edit_file (now : SessionManager.DateTime) (filepath mode : str)
    (output_path : option str) (backup : bool) : M World str :=
  let* content := read_file filepath in
  if negb (truthy (strip content)) then ret []
  else
    let* _ :=
      (if backup && negb (given output_path)
       then modify (write_file (backup_path filepath) content)
       else ret tt) in
    let* edited := edit ollama_invoke content mode in
    let save_path := SessionManager.or_else output_path filepath in
    let* _ := modify (write_file save_path (provenance now mode ++ edited)) in
    ret edited.

End Editor.

(** A file of notes and a world that holds it. *)
Definition notes_path : str := u "sessions/notes.md".
Definition notes : str := u "buy milk" ++ [LF] ++ u "call Bob" ++ [LF].
Definition notes_world : World :=
  write_file notes_path notes empty_world.
Definition editor_service : str -> result str :=
  fun _ => inr (u " - [ ] buy milk ").
Definition editor_down : str -> result str :=
  fun _ => inl (ServiceError (u "connection refused")).

End EditFile.

(** ** src/app.py: the session browser *)
Module App.

(** [s.replace(".md", "")]: every occurrence, left to right. *)
Fixpoint remove_md (s : str) : str :=
  match s with
  | 46%N :: 109%N :: 100%N :: rest => remove_md rest
  | c :: rest => c :: remove_md rest
  | [] => []
  end.

(** [s.split("_", maxsplit)]. *)
Fixpoint cut_at_underscore (s : str) : option (str * str) :=
  match s with
  | [] => None
  | c :: rest =>
      if (c =? UNDERSCORE)%N then Some ([], rest)
      else match cut_at_underscore rest with
           | Some (a, b) => Some (c :: a, b)
           | None => None
           end
  end.

Fixpoint split_underscore (maxsplit : nat) (s : str) : list str :=
  match maxsplit with
  | O => [s]
  | S n => match cut_at_underscore s with
           | Some (a, b) => a :: split_underscore n b
           | None => [s]
           end
  end.

(** [s.replace("_", " ")]. *)
Definition underscores_to_spaces (s : str) : str :=
  map (fun c => if (c =? UNDERSCORE)%N then SPACE else c) s.

(** The variables [date_str] and [title] that the sidebar computes for
    the session file [name] (its base name), last modified on the day
    [modified] ([strftime("%Y-%m-%d")] of the modification time). *)
Definition sidebar_entry (name modified : str) : str * str :=
  let name := remove_md name in
  match split_underscore 2 name with
  | date_str :: _ :: title :: _ => (date_str, underscores_to_spaces title)
  | _ => (modified, name)
  end.

(** The page sign U+1F4C4 that starts the label of a session's button. *)
Definition PAGE : codepoint := 128196%N.

(** The label of the button, the page sign, a space, [title[:25]] and
    three dots. *)
Definition button_label (title : str) : str :=
  [PAGE; SPACE] ++ take 25 title ++ u "...".

(** What the sidebar shows for the file: the label of its button and the
    caption beside it. *)
Definition sidebar_row (name modified : str) : str * str :=
  let (date_str, title) := sidebar_entry name modified in
  (button_label title, date_str).

End App.

(** ** main.py: the dictation loop *)
Module Main.

(** The state of the program: the transcriber with its engine, the world
    of files and completion-service calls, the session manager if one was
    made, and the texts handed to [pyperclip.copy], oldest first. *)
Record App : Type := mkApp {
  engine : Transcriber.Process;
  outside : World;
  session : option SessionManager.SessionManager;
  clipboard : list str;
}.

Definition in_engine {A} (m : M Transcriber.Process A) : M App A :=
  fun a => let (r, p) := m (engine a) in
           (r, mkApp p (outside a) (session a) (clipboard a)).

Definition in_world {A} (m : M World A) : M App A :=
  fun a => let (r, w) := m (outside a) in
           (r, mkApp (engine a) w (session a) (clipboard a)).

(** [if session: ...]: a method call on the session manager, if any. *)
Definition with_session (m : M SessionManager.State unit) : M App unit :=
  fun a => match session a with
           | None => (inr tt, a)
           | Some s =>
               let (r, st) := m (SessionManager.mkState (outside a) s) in
               (r, mkApp (engine a) (SessionManager.world st)
                     (Some (SessionManager.self st)) (clipboard a))
           end.

(** [pyperclip.copy(text)], taken to succeed. *)
Definition copy (text : str) : M App unit :=
  modify (fun a => mkApp (engine a) (outside a) (session a)
                     (clipboard a ++ [text])).

(** [for chunk in gen: processed_text += chunk]; an exception that ends
    the stream goes on to the caller. *)
Definition collect (g : TextProcessor.Gen) : M World str :=
  fun w => match g w with
           | ((chunks, None), w') => (inr (concat chunks), w')
           | ((_, Some e), w') => (inl e, w')
           end.

(** The handler [live_display] that [main] registers. *)
Definition live_display : nat := 0.

(** What a run in raw mode dictates: for each press of the hotkey the
    next utterance of the engine, when its trimmed final text is not
    empty, with the clock reading of the press. *)
Fixpoint dictated (presses : list SessionManager.DateTime)
    (waiting : list Transcriber.Utterance)
  : list (SessionManager.DateTime * str * option str) :=
  match presses, waiting with
  | now :: presses', utt :: waiting' =>
      match Recording.heard utt with
      | inr text =>
          if truthy text
          then (now, text, Some text) :: dictated presses' waiting'
          else dictated presses' waiting'
      | inl _ => dictated presses' waiting'
      end
  | _, _ => []
  end.

(** The engine never raises. *)
Definition engine_reliable (waiting : list Transcriber.Utterance) : Prop :=
  Forall (fun utt => exists o, Transcriber.final utt = inr o) waiting.

Section Loop.

Variable unicode_alnum : codepoint -> bool.
Variable ollama_invoke : str -> result str.
Variable ollama_stream : str -> list str * option exn.
Variable os_rename_error : World -> str -> str -> option exn.
Variable OUTPUT_DIR : str.
Variable new_recorder : str -> str -> result Transcriber.AudioToTextRecorder.

(** The command line: [--mode], [--no-copy], [--no-session]. *)
Variable mode : str.
Variable no_copy : bool.
Variable no_session : bool.

(** One turn of the loop after the hotkey was pressed, at the clock
    reading [now]. *)
Definition cycle (now : SessionManager.DateTime) : M App unit :=
  let* raw_text := in_engine Transcriber.record in
  if negb (truthy raw_text) then ret tt
  else
    let* processed_text :=
      (if decide (mode <> u "raw")
       then in_world (collect (TextProcessor.process_stream ollama_stream
                                 raw_text mode))
       else ret raw_text) in
    let* _ := with_session
                (SessionManager.add_transcription unicode_alnum ollama_invoke
                   os_rename_error now raw_text (Some processed_text)) in
    if no_copy then ret tt else copy processed_text.

(** What the turn hands on as processed text, or the exception that
    ends the turn. *)
Definition produced (raw : str) (w : World) : result str :=
  if decide (mode <> u "raw")
  then fst (collect (TextProcessor.process_stream ollama_stream raw mode) w)
  else inr raw.

(** [while True] over the presses of the hotkey, each with its clock
    reading; after the last one [keyboard.wait] is interrupted from the
    keyboard and the loop ends. An exception of a turn ends the loop and
    goes on. *)
Fixpoint loop (presses : list SessionManager.DateTime) : M App unit :=
  match presses with
  | [] => ret tt
  | now :: rest => let* _ := cycle now in loop rest
  end.

(** The [finally] block. *)
Definition shutdown (finish : SessionManager.DateTime) : M App unit :=
  let* _ := with_session
              (let* _ := SessionManager.finalize ollama_invoke finish true in
               ret tt) in
  in_engine Transcriber.stop.

(** [main()]: the engine hears [waiting], the program starts at [begin],
    the hotkey is pressed at [presses], and the interrupt comes at
    [finish]. *)
Definition main (w : World) (waiting : list Transcriber.Utterance)
    (begin : SessionManager.DateTime)
    (presses : list SessionManager.DateTime)
    (finish : SessionManager.DateTime) : result unit * App :=
  let transcriber :=
    Transcriber.__init__ (u "medium.en") (u "cuda") (Some live_display) in
  let a0 := mkApp (Transcriber.mkProcess transcriber [] [] waiting) w None [] in
  match in_engine (Transcriber.start new_recorder) a0 with
  | (inl e, a) => (inl e, a)
  | (inr _, a) =>
      let a1 :=
        if no_session then a
        else let st := SessionManager.__init__ OUTPUT_DIR None begin (outside a) in
             mkApp (engine a) (SessionManager.world st)
               (Some (SessionManager.self st)) (clipboard a) in
      match loop presses a1 with
      | (r, a2) =>
          match shutdown finish a2 with
          | (inl e, a3) => (inl e, a3)
          | (inr _, a3) => (r, a3)
          end
      end
  end.

End Loop.

(** A running program with the scenario's new session, an engine that
    has one utterance waiting, and one that has only silence waiting. *)
Definition silence : Transcriber.Utterance :=
  Transcriber.mkUtterance [] (inr None).

Definition demo_app : App :=
  mkApp Recording.demo_started
    (SessionManager.world SessionManager.scenario_start)
    (Some (SessionManager.self SessionManager.scenario_start)) [].

Definition silent_app : App :=
  mkApp (Transcriber.mkProcess (Transcriber.self Recording.demo_started)
           [] [] [silence])
    (SessionManager.world SessionManager.scenario_start)
    (Some (SessionManager.self SessionManager.scenario_start)) [].

Definition engine_ok : str -> str -> result Transcriber.AudioToTextRecorder :=
  fun _ _ => inr Recording.demo_engine.

End Main.

(** * Properties *)

(** ** Strings *)

Lemma lstrip_head_ok (s : str) : head_ok (lstrip s).
Proof.
  induction s as [|c s IH]; simpl; [exact I|].
  destruct (is_space c) eqn:Hc; [exact IH | exact Hc].
Qed.

Lemma lstrip_fixed (s : str) : head_ok s -> lstrip s = s.
Proof.
  destruct s as [|c s]; simpl; [reflexivity|].
  intros ->. reflexivity.
Qed.

Lemma lstrip_suffix (s : str) : exists t, s = t ++ lstrip s.
Proof.
  induction s as [|c s [t Ht]]; simpl.
  - exists []. reflexivity.
  - destruct (is_space c).
    + exists (c :: t). simpl. congruence.
    + exists []. reflexivity.
Qed.

Lemma rstrip_prefix (s : str) : exists t, s = rstrip s ++ t.
Proof.
  unfold rstrip. destruct (lstrip_suffix (rev s)) as [t Ht].
  exists (rev t). rewrite <- rev_app_distr, <- Ht, rev_involutive. reflexivity.
Qed.

Lemma rstrip_head_ok (s : str) : head_ok s -> head_ok (rstrip s).
Proof.
  intros H. destruct (rstrip_prefix s) as [t Ht].
  destruct (rstrip s) as [|c r]; [exact I|].
  rewrite Ht in H. exact H.
Qed.

Lemma rstrip_rstrip (s : str) : rstrip (rstrip s) = rstrip s.
Proof.
  unfold rstrip. rewrite rev_involutive.
  rewrite (lstrip_fixed (lstrip (rev s))); [reflexivity | apply lstrip_head_ok].
Qed.

Lemma strip_strip (s : str) : strip (strip s) = strip s.
Proof.
  unfold strip.
  rewrite (lstrip_fixed (rstrip (lstrip s))).
  - apply rstrip_rstrip.
  - apply rstrip_head_ok, lstrip_head_ok.
Qed.

Lemma truthy_false (s : str) : truthy s = false -> s = [].
Proof. destruct s; [reflexivity | discriminate]. Qed.

(** ** The transcriber *)
Section TranscriberProperties.

Import Transcriber.

Lemma perform_unstarted (c : call) (p : Process) :
  recorder (self p) = None -> recorder (self (perform c p)) = None.
Proof.
  intros H. destruct c; simpl.
  - unfold stop. rewrite H. exact H.
  - unfold record, bind, get. simpl. rewrite H. exact H.
  - exact H.
  - unfold _on_transcription. destruct (_on_live_update (self p)); exact H.
Qed.

Lemma perform_all_unstarted (cs : list call) (p : Process) :
  recorder (self p) = None -> recorder (self (perform_all cs p)) = None.
Proof.
  revert p. induction cs as [|c cs IH]; intros p H; simpl; [exact H|].
  apply IH, perform_unstarted, H.
Qed.

(** C10: on a transcriber built with any constructor arguments, after any
    calls other than [start] (so [start] has never been called),
    [record] raises the runtime error "Transcriber not started" and
    returns nothing; it does not consult the engine and leaves the object
    as it was. *)
Theorem record_before_start_raises
    (model device : str) (on_live_update : option nat)
    (log : list (nat * str)) (down : list nat) (heard : list Utterance)
    (cs : list call) :
  let p := perform_all cs
             (mkProcess (__init__ model device on_live_update) log down heard) in
  record p = (inl record_error, p)
  /\ record_error = RuntimeError (u "Transcriber not started. Call start() first.").
Proof.
  intros p. split; [|reflexivity].
  assert (H : recorder (self p) = None)
    by (apply perform_all_unstarted; reflexivity).
  unfold record, bind, get. simpl. rewrite H. reflexivity.
Qed.

End TranscriberProperties.

(** ** The document editor *)
Section DocumentEditorProperties.

Import DocumentEditor.

Variable ollama_invoke : str -> result str.

(** C9, as the code has it: for every content and every mode absent from
    [EDIT_PROMPTS], [edit] returns the content exactly as given (it is not
    trimmed) and makes no completion-service call. *)
Theorem edit_unknown_mode_identity (content mode : str) (w : World) :
  EDIT_PROMPTS !! mode = None ->
  edit ollama_invoke content mode w = (inr content, w).
Proof.
  intros H. unfold edit, graph_invoke, edit_document, bind, ret. simpl.
  rewrite H. reflexivity.
Qed.

(** For a mode of the table the answer of the service is trimmed: the
    trimming of [edit] is on that path only. *)
Lemma edit_known_mode (content mode : str) (t : template) (w : World) :
  EDIT_PROMPTS !! mode = Some t ->
  edit ollama_invoke content mode w
  = (match ollama_invoke (render t content) with
     | inr r => inr (strip r)
     | inl e => inl e
     end, log_call (render t content) w).
Proof.
  intros H. unfold edit, graph_invoke, edit_document, bind, ret, chain_invoke.
  simpl. rewrite H. destruct (ollama_invoke (render t content)); reflexivity.
Qed.

End DocumentEditorProperties.

Lemma edit_unknown_mode_identity_witness :
  DocumentEditor.edit (DocumentEditor.constant_service (u "x"))
    (u "  hi  ") (u "bogus") empty_world
  = (inr (u "  hi  "), empty_world).
Proof.
  apply (edit_unknown_mode_identity (DocumentEditor.constant_service (u "x"))).
  vm_compute. reflexivity.
Defined.

(** C9 as stated fails: the mode "bogus" is not in the table, the content
    "  hi  " comes back with its blanks, and its trimmed form is "hi". *)
Lemma edit_unknown_mode_not_trimmed :
  DocumentEditor.EDIT_PROMPTS !! u "bogus" = None
  /\ fst (DocumentEditor.edit (DocumentEditor.constant_service (u "x"))
            (u "  hi  ") (u "bogus") empty_world) = inr (u "  hi  ")
  /\ strip (u "  hi  ") = u "hi"
  /\ fst (DocumentEditor.edit (DocumentEditor.constant_service (u "x"))
            (u "  hi  ") (u "bogus") empty_world) <> inr (strip (u "  hi  ")).
Proof.
  repeat split; try (vm_compute; reflexivity).
  vm_compute. discriminate.
Qed.

(** ** The text processor *)
Section TextProcessorProperties.

Import TextProcessor.

Variable ollama_invoke : str -> result str.
Variable ollama_stream : str -> list str * option exn.

Lemma blank_strip (text : str) : blank text = true -> strip text = [].
Proof.
  unfold blank. intros H. apply orb_true_iff in H as [H|H].
  - apply negb_true_iff, truthy_false in H. subst. reflexivity.
  - apply negb_true_iff, truthy_false in H. exact H.
Qed.

Lemma process_bypass (text mode : str) (w : World) :
  bypass mode -> process ollama_invoke text mode w = (inr (strip text), w).
Proof.
  intros Hm. unfold process.
  destruct (blank text) eqn:Hb.
  - rewrite (blank_strip _ Hb). reflexivity.
  - destruct (decide (mode = u "raw")); [reflexivity|].
    destruct Hm as [?|Hm]; [contradiction|]. rewrite Hm. reflexivity.
Qed.

Lemma process_stream_bypass (text mode : str) (w : World) :
  bypass mode ->
  process_stream ollama_stream text mode w
  = ((if blank text then [] else [strip text], None), w).
Proof.
  intros Hm. unfold process_stream.
  destruct (blank text) eqn:Hb; [reflexivity|].
  destruct (decide (mode = u "raw")); [reflexivity|].
  destruct Hm as [?|Hm]; [contradiction|]. rewrite Hm. reflexivity.
Qed.

(** C3: for every text, for mode "raw" or a mode absent from the table,
    [process] returns the trimmed input and the chunks of
    [process_stream] concatenate to exactly that trimmed input (one
    chunk, the trimmed input, for a text that is not blank; none for a
    text that is empty or all white space, whose trimmed form is the
    empty string); the stream ends normally, and neither makes a
    completion-service call: the world, with its record of calls, comes
    back as it was. *)
Theorem raw_or_unknown_mode_bypass (text mode : str) (w : World) :
  mode = u "raw" \/ PROMPTS !! mode = None ->
  process ollama_invoke text mode w = (inr (strip text), w)
  /\ process_stream ollama_stream text mode w
     = ((if blank text then [] else [strip text], None), w)
  /\ concat (fst (fst (process_stream ollama_stream text mode w))) = strip text.
Proof.
  intros Hm. split; [apply process_bypass, Hm|].
  split; [apply process_stream_bypass, Hm|].
  rewrite (process_stream_bypass _ _ _ Hm). simpl.
  destruct (blank text) eqn:Hb; simpl.
  - symmetry. apply blank_strip, Hb.
  - apply app_nil_r.
Qed.

(** C2, as the code has it: with a deterministic service, for every text
    and mode, when [process] returns a string the stream ends normally
    and the concatenation of its chunks, once trimmed, is that string;
    when [process] raises, the stream ends with the same exception; both
    make the same calls. *)
Theorem stream_concat_trimmed_is_process (text mode : str) (w : World) :
  deterministic_service ollama_invoke ollama_stream ->
  let p := process ollama_invoke text mode w in
  let s := process_stream ollama_stream text mode w in
  snd s = snd p
  /\ match fst p with
     | inr r => snd (fst s) = None /\ strip (concat (fst (fst s))) = r
     | inl e => snd (fst s) = Some e
     end.
Proof.
  intros Hdet. unfold process, process_stream. cbv zeta.
  destruct (blank text) eqn:Hb; [simpl; auto|].
  destruct (decide (mode = u "raw")).
  { simpl. rewrite app_nil_r, strip_strip. auto. }
  destruct (PROMPTS !! mode) as [[t|]|].
  - unfold bind, chain_invoke, chain_stream, ret. simpl.
    rewrite (Hdet (render t text)).
    destruct (ollama_stream (render t text)) as [chunks [e|]]; simpl; auto.
  - simpl. rewrite app_nil_r, strip_strip. auto.
  - simpl. rewrite app_nil_r, strip_strip. auto.
Qed.

End TextProcessorProperties.

Lemma stub_deterministic :
  TextProcessor.deterministic_service TextProcessor.stub_invoke
    TextProcessor.stub_stream.
Proof. intros prompt. reflexivity. Qed.

Lemma raw_or_unknown_mode_bypass_witness :
  TextProcessor.process TextProcessor.stub_invoke (u " um hi ") (u "raw") empty_world
  = (inr (u "um hi"), empty_world)
  /\ TextProcessor.process_stream TextProcessor.stub_stream (u " um hi ")
       (u "shout") empty_world
     = (([u "um hi"], None), empty_world).
Proof.
  split.
  - apply (raw_or_unknown_mode_bypass TextProcessor.stub_invoke
             TextProcessor.stub_stream (u " um hi ") (u "raw") empty_world).
    left. reflexivity.
  - apply (raw_or_unknown_mode_bypass TextProcessor.stub_invoke
             TextProcessor.stub_stream (u " um hi ") (u "shout") empty_world).
    right. vm_compute. reflexivity.
Defined.

Lemma stream_concat_trimmed_is_process_witness :
  strip (concat (fst (fst (TextProcessor.process_stream TextProcessor.stub_stream
                             (u "um hi there") (u "clean") empty_world))))
  = u "Hi there.".
Proof.
  exact (proj2 (proj2 (stream_concat_trimmed_is_process
    TextProcessor.stub_invoke TextProcessor.stub_stream
    (u "um hi there") (u "clean") empty_world stub_deterministic))).
Defined.

(** C2 as stated fails: the stub is deterministic, [process] returns
    "Hi there." for mode "clean", and the chunks of [process_stream]
    concatenate to " Hi there. " with its blanks. *)
Lemma stream_concat_differs_from_process :
  TextProcessor.deterministic_service TextProcessor.stub_invoke
    TextProcessor.stub_stream
  /\ fst (TextProcessor.process TextProcessor.stub_invoke
            (u "um hi there") (u "clean") empty_world) = inr (u "Hi there.")
  /\ concat (fst (fst (TextProcessor.process_stream TextProcessor.stub_stream
                         (u "um hi there") (u "clean") empty_world)))
     = u " Hi there. "
  /\ u " Hi there. " <> u "Hi there.".
Proof.
  split; [intros prompt; reflexivity|].
  repeat split; try (vm_compute; reflexivity).
  vm_compute. discriminate.
Qed.

(** ** Text-mode reads *)

Lemma universal_newlines_other (c : codepoint) (s : str) :
  c <> CR -> universal_newlines (c :: s) = c :: universal_newlines s.
Proof.
  intros Hc. simpl. destruct (N.eqb_spec c CR); [contradiction | reflexivity].
Qed.

(** A prefix without carriage return is read back as it is. *)
Lemma universal_newlines_app (a b : str) :
  Forall (fun c => c <> CR) a ->
  universal_newlines (a ++ b) = a ++ universal_newlines b.
Proof.
  induction 1 as [|c a Hc _ IH]; [reflexivity|].
  rewrite <- app_comm_cons, (universal_newlines_other _ _ Hc), IH. reflexivity.
Qed.

Lemma universal_newlines_plain (s : str) :
  Forall (fun c => c <> CR) s -> universal_newlines s = s.
Proof.
  intros H. rewrite <- (app_nil_r s) at 1.
  rewrite (universal_newlines_app _ _ H). apply app_nil_r.
Qed.

(** A property of characters that the line feed has passes from the
    stored text to the text read. *)
Lemma universal_newlines_Forall (P : codepoint -> Prop) (s : str) :
  P LF -> Forall P s -> Forall P (universal_newlines s).
Proof.
  intros HLF. remember (length s) as n eqn:Hn. revert s Hn.
  induction n as [n IH] using lt_wf_ind. intros s Hn Hs.
  destruct s as [|c s]; [constructor|].
  inversion Hs as [|? ? Hc Hs']; subst.
  simpl. destruct (c =? CR)%N.
  - constructor; [exact HLF|].
    destruct s as [|c' s]; [constructor|].
    inversion Hs' as [|? ? Hc' Hs'']; subst.
    destruct (c' =? LF)%N.
    + apply (IH (length s)); [simpl; lia | reflexivity | exact Hs''].
    + apply (IH (length (c' :: s))); [simpl; lia | reflexivity | exact Hs'].
  - constructor; [exact Hc|].
    apply (IH (length s)); [simpl; lia | reflexivity | exact Hs'].
Qed.

(** The text read has no carriage return. *)
Lemma universal_newlines_no_CR (s : str) :
  Forall (fun c => c <> CR) (universal_newlines s).
Proof.
  remember (length s) as n eqn:Hn. revert s Hn.
  induction n as [n IH] using lt_wf_ind. intros s Hn.
  destruct s as [|c s]; [constructor|].
  simpl. destruct (N.eqb_spec c CR) as [->|Hc].
  - constructor; [discriminate|].
    destruct s as [|c' s]; [constructor|].
    destruct (c' =? LF)%N.
    + apply (IH (length s)); [subst; simpl; lia | reflexivity].
    + apply (IH (length (c' :: s))); [subst; simpl; lia | reflexivity].
  - constructor; [exact Hc|].
    apply (IH (length s)); [subst; simpl; lia | reflexivity].
Qed.

(** ** Lines and the heading substitution *)

Lemma join_lines_cons (l : str) (ls : list str) :
  ls <> [] -> join [LF] (l :: ls) = l ++ [LF] ++ join [LF] ls.
Proof. destruct ls; [contradiction | reflexivity]. Qed.

Lemma split_lines_nonempty (s : str) : split_lines s <> [].
Proof.
  induction s as [|c s IH]; simpl; [discriminate|].
  destruct (c =? LF)%N; [discriminate|].
  destruct (split_lines s); discriminate.
Qed.

Lemma join_split_lines (s : str) : join [LF] (split_lines s) = s.
Proof.
  induction s as [|c s IH]; [reflexivity|].
  simpl split_lines. destruct (N.eqb_spec c LF) as [->|Hc].
  - rewrite join_lines_cons by apply split_lines_nonempty.
    rewrite IH. reflexivity.
  - pose proof (split_lines_nonempty s) as Hne.
    destruct (split_lines s) as [|l ls]; [contradiction|].
    destruct ls as [|l' ls].
    + simpl in *. congruence.
    + change (join [LF] ((c :: l) :: l' :: ls))
        with (c :: join [LF] (l :: l' :: ls)).
      rewrite IH. reflexivity.
Qed.

Lemma split_lines_first (l rest : str) :
  Forall (fun c => c <> LF) l ->
  split_lines (l ++ LF :: rest) = l :: split_lines rest.
Proof.
  induction 1 as [|c l Hc _ IH]; simpl.
  - reflexivity.
  - destruct (N.eqb_spec c LF); [contradiction|]. rewrite IH. reflexivity.
Qed.

(** On a file whose first line is a heading, the substitution replaces
    that line and nothing else. *)
Lemma re_sub_heading_first_line (repl l rest : str) :
  Forall (fun c => c <> LF) l ->
  SessionManager.is_heading l = true ->
  SessionManager.re_sub_heading repl (l ++ LF :: rest) = repl ++ LF :: rest.
Proof.
  intros Hl Hh. unfold SessionManager.re_sub_heading.
  rewrite (split_lines_first _ _ Hl). simpl. rewrite Hh.
  rewrite join_lines_cons by apply split_lines_nonempty.
  rewrite join_split_lines. reflexivity.
Qed.

Lemma placeholder_heading :
  Forall (fun c => c <> LF) (u "# " ++ SessionManager.placeholder_title)
  /\ SessionManager.is_heading (u "# " ++ SessionManager.placeholder_title) = true.
Proof.
  split; [|reflexivity].
  vm_compute. repeat constructor; discriminate.
Qed.

(** ** The world *)

Lemma file_content_append (p d : str) (w : World) :
  file_content (append_file p d w) p = file_content w p ++ d.
Proof. unfold file_content, append_file. simpl. rewrite lookup_insert_eq. reflexivity. Qed.

Lemma file_content_write (p d : str) (w : World) :
  file_content (write_file p d w) p = d.
Proof. unfold file_content, write_file. simpl. rewrite lookup_insert_eq. reflexivity. Qed.

Lemma file_content_log_call (prompt p : str) (w : World) :
  file_content (log_call prompt w) p = file_content w p.
Proof. reflexivity. Qed.

Lemma file_content_log_rename (src dst p : str) (w : World) :
  file_content (log_rename src dst w) p = file_content w p.
Proof. reflexivity. Qed.

Lemma file_content_set_fs (f : gmap str str) (p d : str) (w : World) :
  file_content (set_fs (<[p := d]> f) w) p = d.
Proof. unfold file_content, set_fs. simpl. rewrite lookup_insert_eq. reflexivity. Qed.

(** ** The session document *)
Section SessionProperties.

Import SessionManager.

Variable unicode_alnum : codepoint -> bool.
Variable ollama_invoke : str -> result str.
Variable os_rename_error : World -> str -> str -> option exn.
Variable OUTPUT_DIR : str.

Local Abbreviation sanitize := (SessionManager.sanitize unicode_alnum).
Local Abbreviation kept := (SessionManager.kept unicode_alnum).
Local Abbreviation add_transcription :=
  (SessionManager.add_transcription unicode_alnum ollama_invoke os_rename_error).
Local Abbreviation add_all :=
  (SessionManager.add_all unicode_alnum ollama_invoke os_rename_error).
Local Abbreviation finalize := (SessionManager.finalize ollama_invoke).
Local Abbreviation __init__ := (SessionManager.__init__ OUTPUT_DIR).
Local Abbreviation provisional_path := (SessionManager.provisional_path OUTPUT_DIR).
Local Abbreviation inferred_title := (SessionManager.inferred_title unicode_alnum).
Local Abbreviation titled_path :=
  (SessionManager.titled_path unicode_alnum OUTPUT_DIR).
Local Abbreviation summary_body := (SessionManager.summary_body ollama_invoke).
Local Abbreviation after_first_add :=
  (SessionManager.after_first_add unicode_alnum ollama_invoke os_rename_error
     OUTPUT_DIR).
Local Abbreviation functions_normally :=
  (SessionManager.functions_normally unicode_alnum ollama_invoke os_rename_error).

Lemma digit_range (n : N) : (48 <= digit n <= 57)%N.
Proof.
  unfold digit.
  assert (H : (n mod 10 < 10)%N) by (apply N.mod_upper_bound; discriminate).
  revert H. generalize (n mod 10)%N. intros m H. lia.
Qed.

Lemma pad2_digits (n : N) : Forall (fun c => (48 <= c <= 57)%N) (pad2 n).
Proof. unfold pad2. repeat constructor; apply digit_range. Qed.

Lemma pad4_digits (n : N) : Forall (fun c => (48 <= c <= 57)%N) (pad4 n).
Proof. unfold pad4. repeat constructor; apply digit_range. Qed.

Lemma digits_no_CR (l : str) :
  Forall (fun c => (48 <= c <= 57)%N) l -> Forall (fun c => c <> CR) l.
Proof.
  intros H. eapply Forall_impl; [exact H|]. intros c Hc ->.
  unfold CR in Hc. lia.
Qed.

Lemma strftime_minute_no_CR (t : DateTime) :
  Forall (fun c => c <> CR) (strftime_minute t).
Proof.
  unfold strftime_minute.
  repeat (apply Forall_app; split);
    first [ apply digits_no_CR, pad2_digits | apply digits_no_CR, pad4_digits
          | vm_compute; repeat constructor; discriminate ].
Qed.

(** The header of a new file has no carriage return. *)
Lemma header_no_CR (start : DateTime) :
  Forall (fun c => c <> CR) (header placeholder_title start).
Proof.
  unfold header, header_rest.
  repeat (apply Forall_app; split);
    first [ apply digits_no_CR, pad2_digits | apply digits_no_CR, pad4_digits
          | vm_compute; repeat constructor; discriminate ].
Qed.

Lemma sanitize_kept (s : str) : Forall (fun c => kept c = true) (sanitize s).
Proof.
  unfold SessionManager.sanitize. induction s as [|c s IH]; simpl; [constructor|].
  destruct (kept c) eqn:Hc; [constructor; assumption | assumption].
Qed.

Lemma sanitize_fixed (s : str) :
  Forall (fun c => kept c = true) s -> sanitize s = s.
Proof.
  unfold SessionManager.sanitize. induction 1 as [|c s Hc _ IH]; simpl; [reflexivity|].
  rewrite Hc, IH. reflexivity.
Qed.

Lemma inferred_title_kept (t : str) :
  Forall (fun c => kept c = true) (inferred_title t).
Proof. unfold SessionManager.inferred_title. apply Forall_take, sanitize_kept. Qed.

Lemma sanitize_inferred_title (t : str) :
  sanitize (inferred_title t) = inferred_title t.
Proof. apply sanitize_fixed, inferred_title_kept. Qed.

(** The replacement text of the heading substitution has no backslash, so
    [re.sub] inserts it as it is. *)
Lemma inferred_title_no_backslash (t : str) :
  Forall (fun c => c <> BACKSLASH) (u "# " ++ inferred_title t).
Proof.
  apply Forall_app. split.
  - vm_compute. repeat constructor; discriminate.
  - eapply Forall_impl; [apply inferred_title_kept|].
    intros c Hc ->. vm_compute in Hc. discriminate.
Qed.

(** *** A later entry *)

Lemma add_later (now : DateTime) (text : str) (cleaned_text : option str)
    (st : State) :
  transcriptions (self st) <> [] ->
  add_transcription now text cleaned_text st
  = (inr tt,
     mkState (append_file (filepath (self st)) (block_of now text cleaned_text)
                (world st))
             (append_entry (entry_of now text cleaned_text) (self st))).
Proof.
  intros Hne. unfold SessionManager.add_transcription, bind, update, effect,
    modify, get_self. simpl.
  destruct (decide _) as [Hlen|_]; [|reflexivity].
  rewrite length_app in Hlen. simpl in Hlen.
  destruct (transcriptions (self st)); [contradiction | simpl in Hlen; lia].
Qed.

(** *** finalize *)

Lemma finalize_empty (now : DateTime) (organize : bool) (st : State) :
  transcriptions (self st) = [] -> finalize now organize st = (inr None, st).
Proof.
  intros H. unfold SessionManager.finalize, bind, get_self. simpl.
  rewrite H. reflexivity.
Qed.

Lemma finalize_nonempty (now : DateTime) (organize : bool) (st : State) :
  transcriptions (self st) <> [] ->
  let path := filepath (self st) in
  let all_text := join [LF] (map cleaned (transcriptions (self st))) in
  let w0 := append_file path summary_header (world st) in
  let w1 := if organize then log_call (render organize_template all_text) w0
            else w0 in
  finalize now organize st
  = (inr (Some path),
     mkState (append_file path (footer now)
                (append_file path (summary_body organize all_text) w1))
             (self st)).
Proof.
  intros Hne. cbv zeta.
  unfold SessionManager.finalize, SessionManager.summary_body, bind, get_self. simpl.
  destruct (transcriptions (self st)) as [|e es] eqn:He; [contradiction|].
  destruct organize.
  - unfold try_except, bind, lift, effect, modify, SessionManager.chain_invoke.
    simpl. destruct (ollama_invoke _); reflexivity.
  - reflexivity.
Qed.

(** *** The first entry *)

Lemma init_state (dir : option str) (start : DateTime) (w : World) :
  __init__ dir start w
  = mkState (write_file (provisional_path dir start)
               (header placeholder_title start) w)
      (mkSessionManager (or_else dir OUTPUT_DIR) start [] placeholder_title
         (provisional_path dir start)).
Proof. reflexivity. Qed.

Local Arguments u : simpl never.
Local Arguments path_join : simpl never.
Local Arguments strftime_file : simpl never.
Local Arguments strftime_clock : simpl never.
Local Arguments re_sub_heading : simpl never.
Local Arguments SessionManager.sanitize : simpl never.
Local Arguments replace_space : simpl never.
Local Arguments take : simpl never.
Local Arguments header_rest : simpl never.
Local Arguments entry_block : simpl never.
Local Arguments render : simpl never.
Local Arguments strip : simpl never.
Local Arguments placeholder_title : simpl never.
Local Arguments SessionManager._update_file_title : simpl never.
Local Arguments universal_newlines : simpl never.

(** [_update_file_title] on a file whose first line is a heading. *)
Lemma update_file_title_run (st : State) (stored l rest : str) :
  fs (world st) !! filepath (self st) = Some stored :> option str ->
  universal_newlines stored = l ++ LF :: rest ->
  Forall (fun c => c <> LF) l ->
  is_heading l = true ->
  let s := self st in
  let p0 := filepath s in
  let p1 := path_join (output_dir s)
              (strftime_file (session_start s) ++ u "_"
               ++ take 30 (replace_space (sanitize (title s))) ++ u ".md") in
  let content := (u "# " ++ title s) ++ LF :: rest in
  let w2 := write_file p0 content (world st) in
  SessionManager._update_file_title unicode_alnum os_rename_error st
  = (inr tt,
     match os_rename_error w2 p0 p1 with
     | Some _ => mkState (log_rename p0 p1 w2) s
     | None => mkState (set_fs (<[p1 := content]> (delete p0 (fs w2)))
                          (log_rename p0 p1 w2))
                 (set_filepath p1 s)
     end).
Proof.
  intros Hfile Hread Hl Hh. destruct st as [w s]. cbn [world self] in *.
  unfold SessionManager._update_file_title, try_except, bind, lift, update,
    effect, modify, get_self, read_file, SessionManager.os_rename, ret.
  cbn. rewrite Hfile. rewrite Hread.
  rewrite (re_sub_heading_first_line _ _ _ Hl Hh). cbn.
  destruct (os_rename_error _ _ _); [reflexivity|].
  rewrite lookup_insert_eq. reflexivity.
Qed.

Lemma first_add (dir : option str) (start : DateTime) (w : World)
    (now : DateTime) (text : str) (cleaned_text : option str) :
  add_transcription now text cleaned_text (__init__ dir start w)
  = (inr tt, after_first_add dir start w now text cleaned_text).
Proof.
  rewrite init_state.
  unfold SessionManager.after_first_add, SessionManager.rename_world,
    SessionManager.retitled_content, SessionManager.titling_world.
  unfold SessionManager.add_transcription, bind, update, effect, modify,
    get_self. cbn.
  destruct (decide (1 = 1)) as [_|Hn]; [|contradiction].
  unfold SessionManager._generate_title, try_except, bind, lift, update,
    modify, get_self, SessionManager.chain_invoke. cbn.
  fold (title_prompt text cleaned_text).
  destruct (ollama_invoke (title_prompt text cleaned_text)) as [e|t];
    [reflexivity|].
  fold (inferred_title t).
  destruct placeholder_heading as [Hl Hh].
  rewrite (update_file_title_run _
             (header placeholder_title start ++ block_of now text cleaned_text)
             (u "# " ++ placeholder_title)
             (header_rest start
              ++ universal_newlines (block_of now text cleaned_text)));
    [|idtac|idtac|exact Hl|exact Hh].
  - cbn. rewrite sanitize_inferred_title.
    fold (titled_path dir start t). rewrite <- !app_assoc. reflexivity.
  - cbn. rewrite lookup_insert_eq, file_content_write. reflexivity.
  - rewrite (universal_newlines_app _ _ (header_no_CR start)).
    unfold header. rewrite <- !app_assoc. reflexivity.
Qed.

Lemma add_all_later (calls : list (DateTime * str * option str)) (st : State) :
  transcriptions (self st) <> [] ->
  fst (add_all calls st) = inr tt
  /\ llm_calls (world (snd (add_all calls st))) = llm_calls (world st)
  /\ title (self (snd (add_all calls st))) = title (self st).
Proof.
  revert st. induction calls as [|[[now text] cleaned_text] rest IH];
    intros st Hne.
  - repeat split.
  - cbn [SessionManager.add_all]. unfold bind.
    rewrite (add_later _ _ _ _ Hne).
    match goal with |- context [add_all rest ?s] => specialize (IH s) end.
    destruct IH as (H1 & H2 & H3).
    { cbn. intros H. apply app_eq_nil in H as [_ H]. discriminate. }
    repeat split; [exact H1 | rewrite H2; reflexivity | rewrite H3; reflexivity].
Qed.

Lemma after_first_add_calls (dir : option str) (start : DateTime) (w : World)
    (now : DateTime) (text : str) (cleaned_text : option str) :
  llm_calls (world (after_first_add dir start w now text cleaned_text))
  = llm_calls w ++ [title_prompt text cleaned_text].
Proof.
  unfold SessionManager.after_first_add.
  destruct (ollama_invoke _); [reflexivity|].
  destruct (os_rename_error _ _ _); reflexivity.
Qed.

Lemma after_first_add_entries (dir : option str) (start : DateTime) (w : World)
    (now : DateTime) (text : str) (cleaned_text : option str) :
  transcriptions (self (after_first_add dir start w now text cleaned_text))
  = [entry_of now text cleaned_text].
Proof.
  unfold SessionManager.after_first_add.
  destruct (ollama_invoke _); [reflexivity|].
  destruct (os_rename_error _ _ _); reflexivity.
Qed.

Lemma after_first_add_title (dir : option str) (start : DateTime) (w : World)
    (now : DateTime) (text : str) (cleaned_text : option str) :
  title (self (after_first_add dir start w now text cleaned_text))
  = match ollama_invoke (title_prompt text cleaned_text) with
    | inr t => inferred_title t
    | inl _ => placeholder_title
    end.
Proof.
  unfold SessionManager.after_first_add.
  destruct (ollama_invoke _); [reflexivity|].
  destruct (os_rename_error _ _ _); reflexivity.
Qed.

(** C4, as the code has it: on a new session document, whose title is the
    placeholder and for which no call has been made, for every first
    entry and every run of later entries, every call returns; the first
    [add_transcription] makes exactly one completion-service call, the
    title inference for that entry; it sets the title, to the sanitized
    answer, when the service answers, and leaves the placeholder when the
    service fails; the later entries make no further call and leave the
    title as the first one left it. *)
Theorem title_inference_runs_once (dir : option str) (start : DateTime)
    (w : World) (now : DateTime) (text : str) (cleaned_text : option str)
    (later : list (DateTime * str * option str)) :
  let st0 := __init__ dir start w in
  let one := add_all [(now, text, cleaned_text)] st0 in
  let all := add_all ((now, text, cleaned_text) :: later) st0 in
  fst all = inr tt
  /\ llm_calls (world st0) = llm_calls w
  /\ title (self st0) = placeholder_title
  /\ llm_calls (world (snd one)) = llm_calls w ++ [title_prompt text cleaned_text]
  /\ title (self (snd one))
     = match ollama_invoke (title_prompt text cleaned_text) with
       | inr t => inferred_title t
       | inl _ => placeholder_title
       end
  /\ llm_calls (world (snd all)) = llm_calls w ++ [title_prompt text cleaned_text]
  /\ title (self (snd all)) = title (self (snd one)).
Proof.
  cbv zeta. cbn [SessionManager.add_all]. unfold bind.
  rewrite first_add. cbn [ret fst snd].
  pose proof (after_first_add_entries dir start w now text cleaned_text) as He.
  destruct (add_all_later later
              (after_first_add dir start w now text cleaned_text))
    as (H1 & H2 & H3).
  { rewrite He. discriminate. }
  rewrite H1, H2, H3, after_first_add_calls, after_first_add_title.
  repeat split.
Qed.

(** C1, as the code has it: the object has no finalized state. After
    [finalize] has returned on a document with at least one entry, every
    [add_transcription] returns normally, records the entry, appends its
    block to the backing file and calls no service. *)
Theorem add_after_finalize_appends (st : State) (fin now : DateTime)
    (organize : bool) (text : str) (cleaned_text : option str) :
  transcriptions (self st) <> [] ->
  let st1 := snd (finalize fin organize st) in
  let r := add_transcription now text cleaned_text st1 in
  fst (finalize fin organize st) = inr (Some (filepath (self st)))
  /\ self st1 = self st
  /\ fst r = inr tt
  /\ transcriptions (self (snd r))
     = transcriptions (self st) ++ [entry_of now text cleaned_text]
  /\ session_content (snd r)
     = session_content st1 ++ block_of now text cleaned_text
  /\ llm_calls (world (snd r)) = llm_calls (world st1).
Proof.
  intros Hne. cbv zeta. rewrite (finalize_nonempty _ _ _ Hne). cbn [fst snd].
  rewrite add_later by exact Hne. cbn [fst snd self].
  repeat split. unfold session_content. cbn [world self filepath append_entry].
  apply file_content_append.
Qed.

(** C6, as the code has it: on a document with at least one entry,
    [finalize(organize=False)] returns the path and appends to the file
    the section header, then the entries' cleaned texts in append order
    joined by single line feeds, written as they are with no
    completion-service call, then the footer with the closing time; with
    no entry, [finalize] changes nothing and returns [None] without
    error. *)
Theorem finalize_plain_writes_joined_entries (st : State) (now : DateTime) :
  (transcriptions (self st) <> [] ->
   let r := finalize now false st in
   fst r = inr (Some (filepath (self st)))
   /\ self (snd r) = self st
   /\ session_content (snd r)
      = session_content st ++ summary_header
        ++ join [LF] (map cleaned (transcriptions (self st))) ++ footer now
   /\ llm_calls (world (snd r)) = llm_calls (world st))
  /\ (transcriptions (self st) = [] ->
      forall organize, finalize now organize st = (inr None, st)).
Proof.
  split.
  - intros Hne. cbv zeta. rewrite (finalize_nonempty _ _ _ Hne). cbn [fst snd].
    repeat split. unfold session_content. cbn [world self summary_body].
    rewrite !file_content_append, <- !app_assoc. reflexivity.
  - intros He organize. apply finalize_empty, He.
Qed.

Lemma functions_normally_nonempty (st : State) :
  transcriptions (self st) <> [] -> functions_normally st.
Proof.
  intros Hne. split.
  - intros now text cleaned_text. cbv zeta. rewrite add_later by exact Hne.
    cbn [fst snd self]. repeat split.
    unfold session_content. cbn [world self filepath append_entry].
    apply file_content_append.
  - intros fin organize. cbv zeta. rewrite (finalize_nonempty _ _ _ Hne).
    cbn [fst snd]. split; [reflexivity|].
    unfold session_content. cbn [world self].
    destruct organize;
      rewrite !file_content_append, ?file_content_log_call,
        ?file_content_append, <- !app_assoc; reflexivity.
Qed.

Lemma after_first_add_content (dir : option str) (start : DateTime) (w : World)
    (now : DateTime) (text : str) (cleaned_text : option str) :
  session_content (after_first_add dir start w now text cleaned_text)
  = match ollama_invoke (title_prompt text cleaned_text) with
    | inl _ => header placeholder_title start ++ block_of now text cleaned_text
    | inr t => retitled_content unicode_alnum start now text cleaned_text t
    end.
Proof.
  unfold SessionManager.after_first_add, session_content,
    SessionManager.rename_world, SessionManager.titling_world.
  destruct (ollama_invoke _) as [e|t].
  - cbn [world self filepath].
    rewrite file_content_log_call, file_content_append, file_content_write.
    reflexivity.
  - destruct (os_rename_error _ _ _); cbn [world self filepath title].
    + rewrite file_content_log_rename, file_content_write. reflexivity.
    + rewrite file_content_set_fs. reflexivity.
Qed.

Lemma after_first_add_renames (dir : option str) (start : DateTime) (w : World)
    (now : DateTime) (text : str) (cleaned_text : option str) :
  renames (world (after_first_add dir start w now text cleaned_text))
  = match ollama_invoke (title_prompt text cleaned_text) with
    | inl _ => renames w
    | inr t => renames w ++ [(provisional_path dir start, titled_path dir start t)]
    end.
Proof.
  unfold SessionManager.after_first_add.
  destruct (ollama_invoke _); [reflexivity|].
  destruct (os_rename_error _ _ _); reflexivity.
Qed.

(** C5: on the first entry of a new document, when the completion
    service fails, or when it answers and the operating system, in the
    world in which [os.rename] is called, refuses the rename,
    [add_transcription] still returns normally and the document keeps its
    provisional path; in the first case the title is still the
    placeholder, no rename was attempted and the file holds the header
    and the entry; in the second the title is the inferred one and the
    one rename attempt is on record; in both cases the later
    [add_transcription] and [finalize] calls return normally and append
    to the file. *)
Theorem degraded_title_update_is_absorbed (dir : option str)
    (start : DateTime) (w : World) (now : DateTime) (text : str)
    (cleaned_text : option str) :
  let st0 := __init__ dir start w in
  let prompt := title_prompt text cleaned_text in
  let r := add_transcription now text cleaned_text st0 in
  (exists e, ollama_invoke prompt = inl e)
  \/ (exists t, ollama_invoke prompt = inr t
               /\ os_rename_error
                    (SessionManager.rename_world unicode_alnum OUTPUT_DIR
                       dir start w now text cleaned_text t)
                    (filepath (self st0)) (titled_path dir start t) <> None) ->
  fst r = inr tt
  /\ filepath (self (snd r)) = filepath (self st0)
  /\ ((exists e, ollama_invoke prompt = inl e) ->
      title (self (snd r)) = placeholder_title
      /\ renames (world (snd r)) = renames w
      /\ session_content (snd r)
         = header placeholder_title start ++ block_of now text cleaned_text)
  /\ (forall t, ollama_invoke prompt = inr t ->
      title (self (snd r)) = inferred_title t
      /\ renames (world (snd r))
         = renames w ++ [(filepath (self st0), titled_path dir start t)])
  /\ functions_normally (snd r).
Proof.
  cbv zeta. intros H. rewrite first_add. cbn [fst snd].
  pose proof (after_first_add_entries dir start w now text cleaned_text) as He.
  pose proof (after_first_add_content dir start w now text cleaned_text) as Hc.
  pose proof (after_first_add_title dir start w now text cleaned_text) as Hti.
  pose proof (after_first_add_renames dir start w now text cleaned_text) as Hre.
  assert (Hfn : functions_normally
                  (after_first_add dir start w now text cleaned_text)).
  { apply functions_normally_nonempty. rewrite He. discriminate. }
  split; [reflexivity|].
  rewrite init_state in *. cbn [self filepath] in *.
  split; [|split; [|split; [|exact Hfn]]].
  - unfold SessionManager.after_first_add.
    destruct H as [[e He']|[t [Ht Hren]]].
    + rewrite He'. reflexivity.
    + rewrite Ht. destruct (os_rename_error _ _ _); [reflexivity|].
      contradiction.
  - intros [e He']. rewrite He' in *. auto.
  - intros t Ht. rewrite Ht in *. auto.
Qed.

Lemma strftime_clock_no_CR (t : DateTime) :
  Forall (fun c => c <> CR) (strftime_clock t).
Proof.
  unfold strftime_clock.
  repeat (apply Forall_app; split);
    first [ apply digits_no_CR, pad2_digits
          | vm_compute; repeat constructor; discriminate ].
Qed.

(** The block of an entry without carriage return is read back as it was
    written. *)
Lemma block_read_back (now : DateTime) (text : str) (cleaned_text : option str) :
  Forall (fun c => c <> CR) (or_else cleaned_text text) ->
  universal_newlines (block_of now text cleaned_text)
  = block_of now text cleaned_text.
Proof.
  intros H. apply universal_newlines_plain.
  unfold SessionManager.block_of, entry_block.
  repeat (apply Forall_app; split);
    first [ exact H | apply digits_no_CR, pad2_digits
          | vm_compute; repeat constructor; discriminate ].
Qed.

(** The mutations of the backing file. [add_transcription] on a document
    that already has an entry and [finalize] leave the content of the
    file as a prefix of the new content, that is they only append; the
    first [add_transcription] of a new document appends its block and,
    when the title inference answers, replaces the first line
    "# Untitled Session" by "# " and the new title and writes the rest of
    the file back as the text-mode read returned it: unchanged when the
    entry has no carriage return. *)
Lemma session_file_mutations :
  (forall st now text cleaned_text,
     transcriptions (self st) <> [] ->
     session_content (snd (add_transcription now text cleaned_text st))
     = session_content st ++ block_of now text cleaned_text)
  /\ (forall st fin organize,
        exists written,
          session_content (snd (finalize fin organize st))
          = session_content st ++ written)
  /\ (forall dir start w now text cleaned_text,
        let st0 := __init__ dir start w in
        let st1 := snd (add_transcription now text cleaned_text st0) in
        session_content st0
        = u "# " ++ placeholder_title ++ [LF] ++ header_rest start
        /\ match ollama_invoke (title_prompt text cleaned_text) with
           | inl _ =>
               session_content st1
               = session_content st0 ++ block_of now text cleaned_text
           | inr t =>
               title (self st1) = inferred_title t
               /\ session_content st1
                  = u "# " ++ inferred_title t ++ [LF] ++ header_rest start
                    ++ universal_newlines (block_of now text cleaned_text)
               /\ (Forall (fun c => c <> CR) (or_else cleaned_text text) ->
                   session_content st1
                   = u "# " ++ inferred_title t ++ [LF] ++ header_rest start
                     ++ block_of now text cleaned_text)
           end).
Proof.
  split; [|split].
  - intros st now text cleaned_text Hne.
    apply (functions_normally_nonempty st Hne).
  - intros st fin organize.
    destruct (transcriptions (self st)) as [|e es] eqn:He.
    + exists []. rewrite (finalize_empty _ _ _ He). cbn [snd].
      rewrite app_nil_r. reflexivity.
    + assert (Hne : transcriptions (self st) <> []) by (rewrite He; discriminate).
      eexists. apply (functions_normally_nonempty st Hne).
  - intros dir start w now text cleaned_text. cbv zeta.
    rewrite first_add. cbn [snd].
    assert (H0 : session_content (__init__ dir start w)
                 = u "# " ++ placeholder_title ++ [LF] ++ header_rest start).
    { rewrite init_state. unfold session_content. cbn [world self filepath].
      apply file_content_write. }
    split; [exact H0|].
    pose proof (after_first_add_content dir start w now text cleaned_text) as Hc.
    pose proof (after_first_add_title dir start w now text cleaned_text) as Hti.
    rewrite H0.
    destruct (ollama_invoke _) as [e|t]; [exact Hc|].
    split; [exact Hti|]. split; [exact Hc|].
    intros Hplain. rewrite Hc. unfold SessionManager.retitled_content.
    rewrite (block_read_back _ _ _ Hplain). reflexivity.
Qed.



End SessionProperties.

(** *** The scenario of the specification *)

Lemma title_inference_scenario :
  SessionManager.filepath (SessionManager.self SessionManager.scenario_titled)
  = u "sessions/2024-01-01_10-00_Greeting_Note.md"
  /\ SessionManager.title (SessionManager.self SessionManager.scenario_titled)
     = u "Greeting Note".
Proof. split; vm_compute; reflexivity. Qed.

Lemma add_after_finalize_appends_witness :
  fst (SessionManager.add_transcription SessionManager.no_unicode_alnum
         (SessionManager.service_returns (u "unused")) SessionManager.rename_allowed
         SessionManager.new_year_10_05 (u "one more") None
         (snd (SessionManager.finalize (SessionManager.service_returns (u "unused"))
                 SessionManager.new_year_10_05 false SessionManager.scenario_titled)))
  = inr tt.
Proof.
  refine (proj1 (proj2 (proj2 (add_after_finalize_appends
    SessionManager.no_unicode_alnum (SessionManager.service_returns (u "unused"))
    SessionManager.rename_allowed SessionManager.scenario_titled
    SessionManager.new_year_10_05 SessionManager.new_year_10_05 false
    (u "one more") None _)))).
  vm_compute. discriminate.
Defined.

(** C1 as stated fails: in the scenario, after [finalize] the next
    [add_transcription] returns normally, no error is raised, and the
    content of the backing file has changed. *)
Lemma add_after_finalize_is_accepted :
  let st := snd (SessionManager.finalize (SessionManager.service_returns (u "unused"))
                   SessionManager.new_year_10_05 false
                   SessionManager.scenario_titled) in
  let r := SessionManager.scenario_add (inr (u "unused")) st
             (u "uh one more") (u "One more.") in
  SessionManager.transcriptions (SessionManager.self st) <> []
  /\ fst r = inr tt
  /\ SessionManager.session_content (snd r) <> SessionManager.session_content st.
Proof.
  cbv zeta. split; [vm_compute; discriminate|].
  split; [vm_compute; reflexivity|].
  intros H. apply (f_equal length) in H. vm_compute in H. discriminate.
Qed.

Lemma degraded_title_update_is_absorbed_witness :
  (let r := SessionManager.add_transcription SessionManager.no_unicode_alnum
              SessionManager.service_down SessionManager.rename_allowed
              SessionManager.new_year_10_05 (u "um hi there") (Some (u "Hi there."))
              SessionManager.scenario_start in
   fst r = inr tt
   /\ SessionManager.title (SessionManager.self (snd r)) = u "Untitled Session")
  /\ (let st0 := SessionManager.__init__ (u "sessions") None
                   SessionManager.new_year_10am SessionManager.name_taken_world in
      let r := SessionManager.add_transcription SessionManager.no_unicode_alnum
                 (SessionManager.service_returns (u "Greeting Note"))
                 SessionManager.rename_refuses_taken
                 SessionManager.new_year_10_05 (u "um hi there") (Some (u "Hi there."))
                 st0 in
      fst r = inr tt
      /\ SessionManager.filepath (SessionManager.self (snd r))
         = SessionManager.filepath (SessionManager.self st0)).
Proof.
  split.
  - pose proof (degraded_title_update_is_absorbed SessionManager.no_unicode_alnum
      SessionManager.service_down SessionManager.rename_allowed (u "sessions")
      None SessionManager.new_year_10am empty_world SessionManager.new_year_10_05
      (u "um hi there") (Some (u "Hi there."))) as H.
    cbv zeta in H. destruct H as (H1 & _ & H3 & _).
    { left. eexists. reflexivity. }
    cbv zeta. split; [exact H1|].
    apply H3. eexists. reflexivity.
  - pose proof (degraded_title_update_is_absorbed SessionManager.no_unicode_alnum
      (SessionManager.service_returns (u "Greeting Note"))
      SessionManager.rename_refuses_taken (u "sessions")
      None SessionManager.new_year_10am SessionManager.name_taken_world
      SessionManager.new_year_10_05
      (u "um hi there") (Some (u "Hi there."))) as H.
    cbv zeta in H. destruct H as (H1 & H2 & _).
    { right. eexists. split; [reflexivity|]. vm_compute. discriminate. }
    cbv zeta. split; [exact H1 | exact H2].
Defined.

(** C4 as stated fails when the completion service is down: the first
    entry triggers the one title call, and the title is never set: it is
    the placeholder before the first entry, after it and after the
    second. *)
Lemma failed_title_inference_sets_no_title :
  let down := inl (ServiceError (u "connection refused")) in
  let st1 := snd (SessionManager.scenario_add down SessionManager.scenario_start
                    (u "um hi there") (u "Hi there.")) in
  let st2 := snd (SessionManager.scenario_add down st1
                    (u "uh bye for now") (u "Bye for now.")) in
  length (llm_calls (SessionManager.world SessionManager.scenario_start)) = 0
  /\ length (llm_calls (SessionManager.world st1)) = 1
  /\ length (llm_calls (SessionManager.world st2)) = 1
  /\ SessionManager.title (SessionManager.self SessionManager.scenario_start)
     = u "Untitled Session"
  /\ SessionManager.title (SessionManager.self st1) = u "Untitled Session"
  /\ SessionManager.title (SessionManager.self st2) = u "Untitled Session".
Proof. cbv zeta. repeat split; vm_compute; reflexivity. Qed.

Lemma finalize_plain_writes_joined_entries_witness :
  fst (SessionManager.finalize (SessionManager.service_returns (u "unused"))
         SessionManager.new_year_10_05 false SessionManager.scenario_titled)
  = inr (Some (u "sessions/2024-01-01_10-00_Greeting_Note.md")).
Proof.
  etransitivity.
  - refine (proj1 (proj1 (finalize_plain_writes_joined_entries
      (SessionManager.service_returns (u "unused"))
      SessionManager.scenario_titled SessionManager.new_year_10_05) _)).
    vm_compute. discriminate.
  - vm_compute. reflexivity.
Defined.

(** C6 as stated fails on two entries: the text written between the
    header and the footer is "Hi there.", a line feed, "Bye for now.",
    which is not the concatenation "Hi there.Bye for now." of the cleaned
    texts. *)
Lemma finalize_plain_is_not_bare_concatenation :
  let st := SessionManager.scenario_two_entries in
  let r := SessionManager.finalize (SessionManager.service_returns (u "unused"))
             SessionManager.new_year_10_05 false st in
  map SessionManager.cleaned (SessionManager.transcriptions (SessionManager.self st))
  = [u "Hi there."; u "Bye for now."]
  /\ SessionManager.session_content (snd r)
     = SessionManager.session_content st ++ SessionManager.summary_header
       ++ (u "Hi there." ++ [LF] ++ u "Bye for now.")
       ++ SessionManager.footer SessionManager.new_year_10_05
  /\ SessionManager.session_content (snd r)
     <> SessionManager.session_content st ++ SessionManager.summary_header
        ++ concat (map SessionManager.cleaned
                     (SessionManager.transcriptions (SessionManager.self st)))
        ++ SessionManager.footer SessionManager.new_year_10_05.
Proof.
  cbv zeta. split; [vm_compute; reflexivity|].
  split; [vm_compute; reflexivity|].
  intros H. apply (f_equal length) in H. vm_compute in H. discriminate.
Qed.

(** C7 at a first entry with a carriage return, "Hi", CR, "there.": the
    block is appended with its carriage return; the title update then
    rewrites the heading and also writes a line feed in place of the
    carriage return, so that the file is not the one in which only the
    heading line has changed. *)
Lemma title_update_rewrites_carriage_return :
  let appended :=
    snd (SessionManager.scenario_add (inl (ServiceError (u "connection refused")))
           SessionManager.scenario_start (u "um hi there")
           SessionManager.carriage_return_entry) in
  let retitled :=
    snd (SessionManager.scenario_add (inr (u "Greeting Note"))
           SessionManager.scenario_start (u "um hi there")
           SessionManager.carriage_return_entry) in
  SessionManager.session_content appended
  = SessionManager.header (u "Untitled Session") SessionManager.new_year_10am
    ++ u "**[10:05:07]** Hi" ++ [CR] ++ u "there." ++ [LF; LF]
  /\ SessionManager.session_content retitled
     = SessionManager.header (u "Greeting Note") SessionManager.new_year_10am
       ++ u "**[10:05:07]** Hi" ++ [LF] ++ u "there." ++ [LF; LF]
  /\ SessionManager.session_content retitled
     <> SessionManager.header (u "Greeting Note") SessionManager.new_year_10am
        ++ u "**[10:05:07]** Hi" ++ [CR] ++ u "there." ++ [LF; LF].
Proof.
  cbv zeta. split; [vm_compute; reflexivity|].
  split; [vm_compute; reflexivity|].
  vm_compute. discriminate.
Qed.



(** The file name keeps white space other than U+0020: for the answer
    "Greeting", line feed, "Note" the file is renamed to a name with the
    line feed in it. *)
Lemma file_name_keeps_inner_line_feed :
  SessionManager.filepath (SessionManager.self
    (snd (SessionManager.scenario_add (inr SessionManager.two_line_answer)
            SessionManager.scenario_start (u "um hi there") (u "Hi there."))))
  = u "sessions/2024-01-01_10-00_Greeting" ++ [LF] ++ u "Note.md".
Proof. vm_compute. reflexivity. Qed.

(** * Further properties of the code *)

(** ** Trimming *)

Lemma strip_trimmed (s : str) : trimmed (strip s).
Proof.
  split.
  - unfold strip. apply rstrip_head_ok, lstrip_head_ok.
  - unfold strip, rstrip. rewrite rev_involutive. apply lstrip_head_ok.
Qed.

Lemma strip_nil_blank (text : str) :
  strip text = [] -> TextProcessor.blank text = true.
Proof.
  intros H. unfold TextProcessor.blank. rewrite H. apply orb_true_r.
Qed.

Lemma not_blank (text : str) :
  strip text <> [] -> TextProcessor.blank text = false.
Proof.
  intros H. destruct (TextProcessor.blank text) eqn:Hb; [|reflexivity].
  destruct H. unfold TextProcessor.blank in Hb.
  apply orb_true_iff in Hb as [Hb|Hb];
    apply negb_true_iff, truthy_false in Hb; [subst; reflexivity | exact Hb].
Qed.

Lemma lstrip_nil (s : str) :
  lstrip s = [] <-> Forall (fun c => is_space c = true) s.
Proof.
  induction s as [|c s IH]; simpl.
  - split; [constructor | reflexivity].
  - destruct (is_space c) eqn:Hc.
    + rewrite IH. split; [intros H; constructor; assumption|].
      intros H. inversion H; assumption.
    + split; [discriminate|]. intros H. inversion H; congruence.
Qed.

(** [s.strip()] is empty exactly when [s] is all white space. *)
Lemma strip_nil (s : str) :
  strip s = [] <-> Forall (fun c => is_space c = true) s.
Proof.
  rewrite <- lstrip_nil. unfold strip, rstrip. split.
  - intros H. apply (f_equal (@rev codepoint)) in H.
    rewrite rev_involutive in H. simpl in H.
    apply lstrip_nil, Forall_rev in H. rewrite rev_involutive in H.
    pose proof (lstrip_head_ok s) as Hh.
    destruct (lstrip s) as [|c r]; [reflexivity|].
    simpl in Hh. inversion H; congruence.
  - intros ->. reflexivity.
Qed.

Lemma universal_newlines_Forall_inv (P : codepoint -> Prop) (s : str) :
  P CR -> Forall P (universal_newlines s) -> Forall P s.
Proof.
  intros HCR. remember (length s) as n eqn:Hn. revert s Hn.
  induction n as [n IH] using lt_wf_ind. intros s Hn Hs.
  destruct s as [|c s]; [constructor|].
  simpl in Hs. destruct (N.eqb_spec c CR) as [->|Hc].
  - constructor; [exact HCR|].
    inversion Hs as [|? ? HLF Hs']; subst.
    destruct s as [|c' s]; [constructor|].
    destruct (N.eqb_spec c' LF) as [->|Hc'].
    + constructor; [exact HLF|].
      apply (IH (length s)); [simpl; lia | reflexivity | exact Hs'].
    + apply (IH (length (c' :: s))); [simpl; lia | reflexivity | exact Hs'].
  - inversion Hs as [|? ? Hc0 Hs']; subst. constructor; [exact Hc0|].
    apply (IH (length s)); [simpl; lia | reflexivity | exact Hs'].
Qed.

(** A text-mode read returns a blank text exactly for a blank file. *)
Lemma blank_read (s : str) :
  strip (universal_newlines s) = [] <-> strip s = [].
Proof.
  rewrite !strip_nil. split.
  - apply universal_newlines_Forall_inv. reflexivity.
  - apply universal_newlines_Forall. reflexivity.
Qed.

(** ** The text processor, further *)
Section TextProcessorFurther.

Import TextProcessor.

Variable ollama_invoke : str -> result str.
Variable ollama_stream : str -> list str * option exn.

Lemma PROMPTS_lookup (mode : str) :
  PROMPTS !! mode
  = if decide (mode = u "clean") then Some (Some PROMPTS_clean)
    else if decide (mode = u "rewrite") then Some (Some PROMPTS_rewrite)
    else if decide (mode = u "bullets") then Some (Some PROMPTS_bullets)
    else if decide (mode = u "email") then Some (Some PROMPTS_email)
    else if decide (mode = u "raw") then Some None
    else None.
Proof.
  unfold PROMPTS. cbn [list_to_map foldr uncurry fst snd].
  destruct (decide (mode = u "clean")) as [->|?]; [vm_compute; reflexivity|].
  rewrite lookup_insert_ne by congruence.
  destruct (decide (mode = u "rewrite")) as [->|?]; [vm_compute; reflexivity|].
  rewrite lookup_insert_ne by congruence.
  destruct (decide (mode = u "bullets")) as [->|?]; [vm_compute; reflexivity|].
  rewrite lookup_insert_ne by congruence.
  destruct (decide (mode = u "email")) as [->|?]; [vm_compute; reflexivity|].
  rewrite lookup_insert_ne by congruence.
  destruct (decide (mode = u "raw")) as [->|?]; [vm_compute; reflexivity|].
  rewrite lookup_insert_ne by congruence.
  apply lookup_empty.
Qed.

Lemma template_of_model_mode (mode : str) :
  mode ∈ model_modes ->
  exists pre post,
    PROMPTS !! mode = Some (Some [Lit pre; Placeholder; Lit post])
      :> option (option template)
    /\ mode <> u "raw".
Proof.
  unfold model_modes. rewrite !elem_of_cons, elem_of_nil.
  intros [->|[->|[->|[->|[]]]]]; eexists _, _;
    (split; [vm_compute; reflexivity | vm_compute; discriminate]).
Qed.

Lemma no_template_otherwise (mode : str) :
  mode ∉ model_modes -> mode = u "raw" \/ PROMPTS !! mode = None.
Proof.
  unfold model_modes. rewrite !not_elem_of_cons. intros (H1 & H2 & H3 & H4 & _).
  rewrite PROMPTS_lookup.
  repeat (destruct (decide _) as [?|?]; [first [contradiction | auto]|]).
  right. reflexivity.
Qed.

(** For a text that is not blank, [process] and [process_stream] call the
    completion service exactly when the mode is "clean", "rewrite",
    "bullets" or "email". They then make one call, with a prompt that
    holds the text as given between the fixed words of the mode's
    template; [process] returns the trimmed answer or lets the exception
    of the service through, without a second attempt; [process_stream]
    hands on the chunks of the service untouched. For any other mode
    neither calls the service. *)
Theorem model_called_for_the_four_modes (mode : str) :
  (mode ∈ model_modes ->
   exists pre post, forall text w,
     strip text <> [] ->
     let prompt := pre ++ text ++ post in
     process ollama_invoke text mode w
     = (match ollama_invoke prompt with
        | inr answer => inr (strip answer)
        | inl e => inl e
        end, log_call prompt w)
     /\ process_stream ollama_stream text mode w
        = (ollama_stream prompt, log_call prompt w)
     /\ llm_calls (log_call prompt w) = llm_calls w ++ [prompt])
  /\ (mode ∉ model_modes ->
      forall text w,
        snd (process ollama_invoke text mode w) = w
        /\ snd (process_stream ollama_stream text mode w) = w).
Proof.
  split.
  - intros Hm. destruct (template_of_model_mode mode Hm) as (pre & post & Ht & Hraw).
    exists pre, post. intros text w Hnb. apply not_blank in Hnb.
    cbv zeta. unfold process, process_stream.
    rewrite Hnb, Ht. destruct (decide (mode = u "raw")); [contradiction|].
    unfold bind, chain_invoke, chain_stream, ret, render.
    cbn [map concat]. rewrite app_nil_r.
    split; [|split; reflexivity].
    destruct (ollama_invoke _); reflexivity.
  - intros Hm text w. apply no_template_otherwise in Hm.
    rewrite (process_bypass ollama_invoke text mode w Hm).
    rewrite (process_stream_bypass ollama_stream text mode w Hm).
    split; reflexivity.
Qed.

(** Whatever the text and the mode, a string returned by [process] has
    no white space at its start or at its end. *)
Theorem process_result_is_trimmed (text mode r : str) (w : World) :
  fst (process ollama_invoke text mode w) = inr r -> trimmed r.
Proof.
  unfold process.
  destruct (blank text).
  { cbn. intros [= <-]. split; exact I. }
  destruct (decide (mode = u "raw")).
  { cbn. intros [= <-]. apply strip_trimmed. }
  destruct (PROMPTS !! mode) as [[t|]|].
  - unfold bind, chain_invoke, ret. cbn.
    destruct (ollama_invoke _); cbn; [discriminate|].
    intros [= <-]. apply strip_trimmed.
  - cbn. intros [= <-]. apply strip_trimmed.
  - cbn. intros [= <-]. apply strip_trimmed.
Qed.

(** For an empty text or a text of white space only, whatever the mode,
    [process] returns the empty string, [process_stream] yields nothing,
    and neither calls the completion service. *)
Theorem blank_text_short_circuits (text mode : str) (w : World) :
  strip text = [] ->
  process ollama_invoke text mode w = (inr [], w)
  /\ process_stream ollama_stream text mode w = (([], None), w).
Proof.
  intros H. apply strip_nil_blank in H. unfold process, process_stream.
  rewrite H. split; reflexivity.
Qed.

End TextProcessorFurther.

Lemma model_called_for_the_four_modes_witness :
  (exists pre post,
     TextProcessor.process TextProcessor.stub_invoke (u "um hi") (u "email")
       empty_world
     = (inr (u "Hi there."), log_call (pre ++ u "um hi" ++ post) empty_world))
  /\ snd (TextProcessor.process TextProcessor.stub_invoke (u "um hi") (u "shout")
            empty_world) = empty_world.
Proof.
  pose proof (model_called_for_the_four_modes TextProcessor.stub_invoke
                TextProcessor.stub_stream (u "email")) as [H _].
  pose proof (model_called_for_the_four_modes TextProcessor.stub_invoke
                TextProcessor.stub_stream (u "shout")) as [_ H'].
  destruct H as (pre & post & Hp).
  { vm_compute. repeat constructor. }
  split.
  - exists pre, post.
    destruct (Hp (u "um hi") empty_world) as (Hp1 & _); [vm_compute; discriminate|].
    exact Hp1.
  - apply H'. vm_compute. intros Hin.
    repeat (apply elem_of_cons in Hin as [Hin|Hin]; [discriminate|]).
    apply elem_of_nil in Hin. exact Hin.
Defined.

Lemma process_result_is_trimmed_witness : trimmed (u "Hi there.").
Proof.
  apply (process_result_is_trimmed TextProcessor.stub_invoke (u "um hi")
           (u "clean") (u "Hi there.") empty_world).
  vm_compute. reflexivity.
Defined.

Lemma blank_text_short_circuits_witness :
  TextProcessor.process TextProcessor.stub_invoke (u "   ") (u "clean") empty_world
  = (inr [], empty_world).
Proof.
  apply (blank_text_short_circuits TextProcessor.stub_invoke
           TextProcessor.stub_stream (u "   ") (u "clean") empty_world).
  vm_compute. reflexivity.
Defined.

(** ** The transcriber, further *)
Section TranscriberFurther.

Import Transcriber Recording.

Variable new_recorder : str -> str -> result AudioToTextRecorder.

Lemma last_cons_default (d t : str) (ps : list str) :
  default d (last (t :: ps)) = default t (last ps).
Proof.
  revert d t. induction ps as [|a ps IH]; intros d t; [reflexivity|].
  change (last (t :: a :: ps)) with (last (a :: ps)).
  rewrite (IH d a), (IH t a). reflexivity.
Qed.

Lemma deliver_run (ps : list str) (p : Process) :
  exists p',
    deliver ps p = (inr tt, p')
    /\ recorder (self p') = recorder (self p)
    /\ _on_live_update (self p') = _on_live_update (self p)
    /\ _transcription (self p') = default (_transcription (self p)) (last ps)
    /\ callback_log p'
       = callback_log p ++ handler_calls (_on_live_update (self p)) ps
    /\ utterances p' = utterances p
    /\ shut_down p' = shut_down p.
Proof.
  revert p. induction ps as [|t ps IH]; intros p.
  - exists p.
    destruct (_on_live_update (self p)); cbn; rewrite app_nil_r; repeat split.
  - cbn [deliver]. unfold bind, _on_transcription.
    destruct (_on_live_update (self p)) as [k|] eqn:Hk.
    + match goal with |- context [deliver ps ?q] => destruct (IH q) as (p' & H1 & H2 & H3 & H4 & H5 & H6 & H7) end.
      exists p'. cbn [self recorder _on_live_update _transcription callback_log
                      utterances shut_down] in *.
      rewrite H1. repeat split; try assumption.
      * rewrite H4. symmetry. apply last_cons_default.
      * rewrite H5. cbn. rewrite <- app_assoc. reflexivity.
    + match goal with |- context [deliver ps ?q] => destruct (IH q) as (p' & H1 & H2 & H3 & H4 & H5 & H6 & H7) end.
      exists p'. unfold set_self in *.
      cbn [self recorder _on_live_update _transcription callback_log
           utterances shut_down] in *.
      rewrite H1. repeat split; try assumption.
      rewrite H4. symmetry. apply last_cons_default.
Qed.

Lemma record_started (p : Transcriber.Process)
    (r : Transcriber.AudioToTextRecorder) :
  Transcriber.recorder (Transcriber.self p) = Some r ->
  fst (Transcriber.record p)
  = match Transcriber.utterances p with
    | [] => inr []
    | utt :: _ => Recording.heard utt
    end
  /\ Transcriber.recorder (Transcriber.self (snd (Transcriber.record p))) = Some r
  /\ Transcriber.utterances (snd (Transcriber.record p))
     = tail (Transcriber.utterances p)
  /\ Transcriber.shut_down (snd (Transcriber.record p))
     = Transcriber.shut_down p.
Proof.
  intros Hr.
  unfold Transcriber.record, bind, get, modify, Transcriber.recorder_text,
    Recording.heard.
  cbn [fst snd]. rewrite Hr. unfold Transcriber.set_self.
  cbn [Transcriber.self Transcriber.utterances Transcriber.callback_log
       Transcriber.shut_down].
  destruct (Transcriber.utterances p) as [|utt rest]; [cbn; rewrite Hr; repeat split|].
  match goal with |- context [Transcriber.deliver _ ?q] =>
    destruct (deliver_run (Transcriber.partials utt) q)
      as (p' & H1 & H2 & H3 & H4 & H5 & H6 & H7)
  end.
  cbn [Transcriber.self Transcriber.recorder Transcriber._on_live_update
       Transcriber._transcription Transcriber.callback_log
       Transcriber.utterances Transcriber.shut_down] in *.
  rewrite H1.
  destruct (Transcriber.final utt) as [e|[text|]]; cbn [fst snd ret];
    try (destruct (truthy text) eqn:Ht; [|apply truthy_false in Ht; subst text]);
    cbn [fst snd ret tail]; rewrite ?H2, ?H6, ?H7, ?Hr; repeat split.
Qed.

(** On a started transcriber, [record] takes the next utterance from the
    engine: it returns the final text trimmed, the empty string when the
    engine returns [None], and lets an exception of the engine through.
    Every partial transcript of the utterance is handed once, in order,
    to the live-update handler if there is one. Afterwards [live_text]
    is the last partial transcript of this utterance, or the empty string
    when there was none: the text of an earlier utterance never stays. *)
Theorem record_takes_next_utterance (p : Process) (r : AudioToTextRecorder)
    (utt : Utterance) (rest : list Utterance) :
  recorder (self p) = Some r ->
  utterances p = utt :: rest ->
  let after := snd (record p) in
  fst (record p) = heard utt
  /\ fst (live_text after) = inr (default [] (last (partials utt)))
  /\ callback_log after
     = callback_log p ++ handler_calls (_on_live_update (self p)) (partials utt)
  /\ utterances after = rest
  /\ recorder (self after) = Some r.
Proof.
  intros Hr Hu. cbv zeta.
  unfold record, bind, get, modify, recorder_text, live_text, heard.
  cbn [fst snd]. rewrite Hr. unfold set_self.
  cbn [self utterances callback_log shut_down]. rewrite Hu.
  match goal with |- context [deliver _ ?q] =>
    destruct (deliver_run (partials utt) q)
      as (p' & H1 & H2 & H3 & H4 & H5 & H6 & H7)
  end.
  cbn [self recorder _on_live_update _transcription callback_log utterances
       shut_down model device] in *.
  rewrite H1.
  destruct (final utt) as [e|[text|]]; cbn [fst snd ret];
    try (destruct (truthy text) eqn:Ht; [|apply truthy_false in Ht; subst text]);
    cbn [fst snd ret]; rewrite ?H2, ?H4, ?H5, ?H6, ?Hr; repeat split;
    unfold bind, get, ret; cbn [fst snd]; rewrite H4; reflexivity.
Qed.

(** When the engine cannot be built, [start] lets the exception through
    and the transcriber stays as it was: [record] still raises "not
    started". *)
Theorem failed_start_leaves_unstarted (model device : str)
    (on_live_update : option nat) (log : list (nat * str)) (down : list nat)
    (waiting : list Utterance) (e : exn) :
  new_recorder model device = inl e ->
  let p := mkProcess (__init__ model device on_live_update) log down waiting in
  start new_recorder p = (inl e, p)
  /\ record (snd (start new_recorder p)) = (inl record_error, p).
Proof.
  intros He. cbv zeta. unfold start. cbn. rewrite He. split; reflexivity.
Qed.

(** [stop] on a transcriber that was never started does nothing. On a
    started one it shuts the engine down at every call, also at a second
    one, and keeps the engine object: a later [record] goes to the engine
    as before and does not raise "not started". *)
Theorem stop_keeps_the_recorder (p : Process) :
  (recorder (self p) = None -> stop p = (inr tt, p))
  /\ (forall r, recorder (self p) = Some r ->
      let once := snd (stop p) in
      let twice := snd (stop once) in
      fst (stop p) = inr tt
      /\ self twice = self p
      /\ shut_down twice = shut_down p ++ [engine_id r; engine_id r]
      /\ (forall utt rest, utterances p = utt :: rest ->
          fst (record twice) = heard utt)).
Proof.
  split.
  - intros H. unfold stop. rewrite H. reflexivity.
  - intros r Hr. cbv zeta. unfold stop. rewrite Hr. cbn [snd self].
    rewrite Hr. cbn [fst snd self shut_down].
    split; [reflexivity|]. split; [reflexivity|].
    split; [rewrite <- app_assoc; reflexivity|].
    intros utt rest Hu.
    match goal with |- fst (record ?q) = _ =>
      destruct (record_started q r Hr) as (H & _); rewrite H
    end.
    cbn [utterances]. rewrite Hu. reflexivity.
Qed.

End TranscriberFurther.

Lemma record_takes_next_utterance_witness :
  fst (Transcriber.record Recording.demo_started) = inr (u "hi there")
  /\ fst (Transcriber.live_text (snd (Transcriber.record Recording.demo_started)))
     = inr (u "hi there")
  /\ Transcriber.callback_log (snd (Transcriber.record Recording.demo_started))
     = [(7, u "hi"); (7, u "hi the"); (7, u "hi there")].
Proof.
  destruct (record_takes_next_utterance Recording.demo_started
              Recording.demo_engine Recording.demo_utterance [] eq_refl eq_refl)
    as (H1 & H2 & H3 & _).
  split; [rewrite H1; vm_compute; reflexivity|].
  split; [rewrite H2; vm_compute; reflexivity|].
  rewrite H3. vm_compute. reflexivity.
Defined.

Lemma failed_start_leaves_unstarted_witness :
  fst (Transcriber.record
         (snd (Transcriber.start Recording.no_engine
                 (Transcriber.mkProcess
                    (Transcriber.__init__ (u "medium.en") (u "cuda") None)
                    [] [] [Recording.demo_utterance]))))
  = inl Transcriber.record_error.
Proof.
  rewrite (proj2 (failed_start_leaves_unstarted Recording.no_engine
                    (u "medium.en") (u "cuda") None [] []
                    [Recording.demo_utterance] _ eq_refl)).
  reflexivity.
Defined.

Lemma stop_keeps_the_recorder_witness :
  fst (Transcriber.record
         (snd (Transcriber.stop (snd (Transcriber.stop Recording.demo_started)))))
  = inr (u "hi there").
Proof.
  destruct (proj2 (stop_keeps_the_recorder Recording.demo_started)
              Recording.demo_engine eq_refl) as (_ & _ & _ & H).
  rewrite (H Recording.demo_utterance [] eq_refl). vm_compute. reflexivity.
Defined.

(** ** Editing a file *)
Section EditFileProperties.

Import DocumentEditor EditFile.

Variable ollama_invoke : str -> result str.

Local Abbreviation edit_file := (EditFile.edit_file ollama_invoke).
Local Abbreviation edit_outcome := (EditFile.edit_outcome ollama_invoke).

Lemma edit_run (content mode : str) (w : World) :
  edit ollama_invoke content mode w
  = (edit_outcome content mode, edit_world content mode w).
Proof.
  unfold edit, graph_invoke, edit_document, EditFile.edit_outcome, edit_world,
    bind, ret, chain_invoke. cbn [DocumentEditor.content edit_mode].
  destruct (EDIT_PROMPTS !! mode) as [t|]; [|reflexivity].
  destruct (ollama_invoke _); reflexivity.
Qed.

Lemma fs_edit_world (content mode : str) (w : World) :
  fs (edit_world content mode w) = fs w.
Proof. unfold edit_world. destruct (EDIT_PROMPTS !! mode); reflexivity. Qed.

Lemma file_content_lookup (w : World) (path content : str) :
  fs w !! path = Some content :> option str -> file_content w path = content.
Proof.
  intros H. unfold file_content. unfold str in *. rewrite H. reflexivity.
Qed.

Lemma file_content_write_ne (p q d : str) (w : World) :
  p <> q -> file_content (write_file p d w) q = file_content w q.
Proof.
  intros H. unfold file_content, write_file. cbn [fs set_fs].
  unfold str in *. rewrite lookup_insert_ne by exact H. reflexivity.
Qed.

Lemma file_content_edit_world (content mode path : str) (w : World) :
  file_content (edit_world content mode w) path = file_content w path.
Proof. unfold file_content. rewrite fs_edit_world. reflexivity. Qed.

Lemma backup_path_differs (path : str) : backup_path path <> path.
Proof.
  unfold backup_path. intros H. apply (f_equal length) in H.
  rewrite length_app in H. cbn in H. lia.
Qed.

(** [edit_file] on a path that holds no file raises the error of the
    read and changes nothing; on a file that is empty or holds only white
    space it returns the empty string and neither calls the service, nor
    writes a backup, nor writes the file. *)
Theorem edit_file_missing_or_blank (now : SessionManager.DateTime)
    (filepath mode : str) (output_path : option str) (backup : bool)
    (w : World) :
  (fs w !! filepath = None ->
   edit_file now filepath mode output_path backup w
   = (inl (FileNotFoundError filepath), w))
  /\ (forall content,
        fs w !! filepath = Some content :> option str ->
        strip content = [] ->
        edit_file now filepath mode output_path backup w = (inr [], w)).
Proof.
  split.
  - intros H. unfold EditFile.edit_file, bind, read_file. rewrite H. reflexivity.
  - intros content H Hb. unfold EditFile.edit_file, bind, read_file.
    rewrite H. apply blank_read in Hb. rewrite Hb. reflexivity.
Qed.

Lemma edit_file_run (now : SessionManager.DateTime)
    (filepath mode stored : str) (output_path : option str) (backup : bool)
    (w : World) :
  fs w !! filepath = Some stored :> option str ->
  strip stored <> [] ->
  edit_file now filepath mode output_path backup w
  = let content := universal_newlines stored in
    let w1 := if backup && negb (given output_path)
              then write_file (backup_path filepath) content w else w in
    match edit_outcome content mode with
    | inl e => (inl e, edit_world content mode w1)
    | inr edited =>
        (inr edited,
         write_file (SessionManager.or_else output_path filepath)
           (provenance now mode ++ edited) (edit_world content mode w1))
    end.
Proof.
  intros Hf Hnb. unfold EditFile.edit_file, bind, read_file. rewrite Hf.
  destruct (truthy (strip (universal_newlines stored))) eqn:Ht;
    [|apply truthy_false in Ht; apply (proj1 (blank_read _)) in Ht;
      contradiction].
  cbn [negb]. cbv zeta.
  destruct (backup && negb (given output_path)); unfold modify, ret;
    rewrite edit_run; destruct (edit_outcome _ mode); reflexivity.
Qed.

(** [edit_file] in place with a backup (no output path, or an empty one),
    on a file that is not blank: the text that is read, edited and backed
    up is the stored text with CR LF and lone CR read as LF; the backup
    file [<path>.backup] holds that text, whether or not the edit
    succeeds; when [edit] returns, the file holds the provenance header
    followed by the edited text, which is also the value returned; when
    the service fails, the exception comes out and the file still holds
    what was stored. *)
Theorem edit_file_in_place_keeps_backup (now : SessionManager.DateTime)
    (filepath mode stored : str) (output_path : option str) (w : World) :
  fs w !! filepath = Some stored :> option str ->
  strip stored <> [] ->
  given output_path = false ->
  let content := universal_newlines stored in
  let r := edit_file now filepath mode output_path true w in
  file_content (snd r) (backup_path filepath) = content
  /\ match edit_outcome content mode with
     | inr edited =>
         fst r = inr edited
         /\ file_content (snd r) filepath = provenance now mode ++ edited
     | inl e => fst r = inl e /\ file_content (snd r) filepath = stored
     end.
Proof.
  intros Hf Hnb Hout. cbv zeta.
  rewrite (edit_file_run _ _ _ _ _ _ _ Hf Hnb). rewrite Hout. cbn [negb andb].
  assert (Hsave : SessionManager.or_else output_path filepath = filepath).
  { destruct output_path as [o|]; [|reflexivity]. cbn in Hout. cbn.
    rewrite Hout. reflexivity. }
  rewrite Hsave. cbv zeta.
  destruct (edit_outcome _ mode) as [e|edited]; cbn [fst snd];
    rewrite ?file_content_write, ?file_content_edit_world.
  - rewrite file_content_write,
      (file_content_write_ne _ _ _ _ (backup_path_differs filepath)),
      (file_content_lookup _ _ _ Hf).
    repeat split.
  - rewrite file_content_write_ne
      by (intros E; symmetry in E; revert E; apply backup_path_differs).
    rewrite file_content_edit_world, file_content_write. repeat split.
Qed.

(** [edit_file] with an output path, on a file that is not blank: the
    text that is edited is the stored text with CR LF and lone CR read as
    LF; no backup is written, whatever the backup flag, and no file other
    than the output file changes; when [edit] returns, the output file
    holds the provenance header followed by the edited text; when the
    service fails no file changes at all. In particular, with the file's
    own path as output path the file is overwritten and no backup of it
    exists. *)
Theorem edit_file_to_output_path (now : SessionManager.DateTime)
    (filepath mode stored out : str) (backup : bool) (w : World) :
  fs w !! filepath = Some stored :> option str ->
  strip stored <> [] ->
  out <> [] ->
  let r := edit_file now filepath mode (Some out) backup w in
  (forall path, path <> out -> fs (snd r) !! path = fs w !! path)
  /\ match edit_outcome (universal_newlines stored) mode with
     | inr edited =>
         fst r = inr edited
         /\ fs (snd r) !! out = Some (provenance now mode ++ edited)
     | inl e => fst r = inl e /\ fs (snd r) = fs w
     end.
Proof.
  intros Hf Hnb Hout. cbv zeta.
  rewrite (edit_file_run _ _ _ _ _ _ _ Hf Hnb).
  assert (Hg : given (Some out) = true)
    by (destruct out; [contradiction|reflexivity]).
  rewrite Hg. cbn [negb]. rewrite andb_false_r.
  assert (Hsave : SessionManager.or_else (Some out) filepath = out).
  { cbn. cbn in Hg. rewrite Hg. reflexivity. }
  rewrite Hsave. cbv zeta.
  destruct (edit_outcome _ mode) as [e|edited];
    cbn [fst snd fs write_file set_fs]; rewrite ?fs_edit_world.
  - repeat split.
  - split; [|split; [reflexivity | apply lookup_insert_eq]].
    intros path Hp. apply lookup_insert_ne. congruence.
Qed.

End EditFileProperties.

Lemma edit_file_missing_or_blank_witness :
  EditFile.edit_file EditFile.editor_service SessionManager.new_year_10am
    (u "sessions/none.md") (u "organize") None true EditFile.notes_world
  = (inl (FileNotFoundError (u "sessions/none.md")), EditFile.notes_world).
Proof.
  apply (proj1 (edit_file_missing_or_blank EditFile.editor_service
                  SessionManager.new_year_10am (u "sessions/none.md")
                  (u "organize") None true EditFile.notes_world)).
  vm_compute. reflexivity.
Defined.

Lemma edit_file_in_place_keeps_backup_witness :
  file_content
    (snd (EditFile.edit_file EditFile.editor_down SessionManager.new_year_10am
            EditFile.notes_path (u "action_items") None true EditFile.notes_world))
    (EditFile.backup_path EditFile.notes_path)
  = EditFile.notes.
Proof.
  refine (proj1 (edit_file_in_place_keeps_backup EditFile.editor_down
                   SessionManager.new_year_10am EditFile.notes_path
                   (u "action_items") EditFile.notes None EditFile.notes_world
                   _ _ _)).
  - vm_compute. reflexivity.
  - vm_compute. discriminate.
  - reflexivity.
Defined.

Lemma edit_file_to_output_path_witness :
  fs (snd (EditFile.edit_file EditFile.editor_service SessionManager.new_year_10am
             EditFile.notes_path (u "action_items") (Some EditFile.notes_path)
             true EditFile.notes_world))
  !! EditFile.backup_path EditFile.notes_path
  = None.
Proof.
  etransitivity.
  - refine (proj1 (edit_file_to_output_path EditFile.editor_service
                     SessionManager.new_year_10am EditFile.notes_path
                     (u "action_items") EditFile.notes EditFile.notes_path true
                     EditFile.notes_world _ _ _) _ _).
    + vm_compute. reflexivity.
    + vm_compute. discriminate.
    + vm_compute. discriminate.
    + vm_compute. discriminate.
  - vm_compute. reflexivity.
Defined.

(** ** The session document, further *)
Section SessionFurther.

Import SessionManager SessionFormat.

Variable unicode_alnum : codepoint -> bool.
Variable ollama_invoke : str -> result str.
Variable os_rename_error : World -> str -> str -> option exn.
Variable OUTPUT_DIR : str.

Local Abbreviation sanitize := (SessionManager.sanitize unicode_alnum).
Local Abbreviation kept := (SessionManager.kept unicode_alnum).
Local Abbreviation add_transcription :=
  (SessionManager.add_transcription unicode_alnum ollama_invoke os_rename_error).
Local Abbreviation add_all :=
  (SessionManager.add_all unicode_alnum ollama_invoke os_rename_error).
Local Abbreviation finalize := (SessionManager.finalize ollama_invoke).
Local Abbreviation __init__ := (SessionManager.__init__ OUTPUT_DIR).
Local Abbreviation inferred_title := (SessionManager.inferred_title unicode_alnum).
Local Abbreviation summary_body := (SessionManager.summary_body ollama_invoke).
Local Abbreviation after_first_add :=
  (SessionManager.after_first_add unicode_alnum ollama_invoke os_rename_error
     OUTPUT_DIR).

Lemma blocks_app (es es' : list Entry) :
  blocks (es ++ es') = blocks es ++ blocks es'.
Proof. unfold blocks. rewrite map_app, concat_app. reflexivity. Qed.

Lemma after_first_add_document (dir : option str) (start : DateTime)
    (w : World) (now : DateTime) (text : str) (cleaned_text : option str) :
  let st1 := after_first_add dir start w now text cleaned_text in
  session_content st1
  = header (title (self st1)) start
    ++ stored_block (answered (ollama_invoke (title_prompt text cleaned_text)))
         (block_of now text cleaned_text).
Proof.
  cbv zeta.
  rewrite (after_first_add_content unicode_alnum ollama_invoke os_rename_error
             OUTPUT_DIR dir start w now text cleaned_text).
  rewrite (after_first_add_title unicode_alnum ollama_invoke os_rename_error
             OUTPUT_DIR dir start w now text cleaned_text).
  destruct (ollama_invoke _); cbn [answered stored_block]; [reflexivity|].
  unfold header, retitled_content. rewrite <- !app_assoc. reflexivity.
Qed.

Lemma stored_block_plain (reread : bool) (now : DateTime) (text : str)
    (cleaned_text : option str) :
  Forall (fun c => c <> CR) (or_else cleaned_text text) ->
  stored_block reread (block_of now text cleaned_text)
  = block_of now text cleaned_text.
Proof.
  intros H. destruct reread; [|reflexivity]. apply block_read_back, H.
Qed.

Lemma blocks_singleton (e : Entry) :
  blocks [e] = entry_block (time e) (cleaned e).
Proof. unfold blocks. cbn [map concat]. apply app_nil_r. Qed.

Lemma add_all_later_file (calls : list (DateTime * str * option str))
    (st : State) :
  transcriptions (self st) <> [] ->
  let r := add_all calls st in
  fst r = inr tt
  /\ transcriptions (self (snd r))
     = transcriptions (self st) ++ map recorded calls
  /\ session_content (snd r)
     = session_content st ++ blocks (map recorded calls)
  /\ title (self (snd r)) = title (self st).
Proof.
  revert st. induction calls as [|[[now text] cleaned_text] rest IH];
    intros st Hne; cbv zeta.
  - cbn [SessionManager.add_all ret fst snd map]. unfold blocks.
    cbn [map concat]. rewrite !app_nil_r. repeat split.
  - cbn [SessionManager.add_all]. unfold bind.
    rewrite (add_later _ _ _ _ _ _ _ Hne).
    match goal with |- context [add_all rest ?s] =>
      specialize (IH s); set (st1 := s) in * end.
    cbv zeta in IH. destruct IH as (H1 & H2 & H3 & H4).
    { subst st1. cbn. intros H. apply app_eq_nil in H as [_ H]. discriminate. }
    rewrite H1, H2, H3, H4. subst st1.
    unfold session_content.
    cbn [self world transcriptions title filepath append_entry map].
    rewrite file_content_append, <- !app_assoc.
    repeat split.
Qed.

Lemma add_all_file (dir : option str) (start : DateTime)
    (w : World) (calls : list (DateTime * str * option str)) :
  let r := add_all calls (__init__ dir start w) in
  fst r = inr tt
  /\ transcriptions (self (snd r)) = map recorded calls
  /\ session_content (snd r)
     = header (title (self (snd r))) start
       ++ stored_blocks (first_answered ollama_invoke calls) (map recorded calls).
Proof.
  cbv zeta. destruct calls as [|[[now text] cleaned_text] rest].
  - cbn [SessionManager.add_all ret fst snd map]. rewrite init_state.
    unfold session_content. cbn [world self filepath title transcriptions].
    rewrite file_content_write. cbn [stored_blocks].
    rewrite app_nil_r. repeat split.
  - cbn [SessionManager.add_all]. unfold bind. rewrite first_add.
    pose proof (after_first_add_entries unicode_alnum ollama_invoke
                  os_rename_error OUTPUT_DIR dir start w now text cleaned_text)
      as He.
    destruct (add_all_later_file rest
                (after_first_add dir start w now text cleaned_text))
      as (H1 & H2 & H3 & H4).
    { rewrite He. discriminate. }
    rewrite H1, H2, H3, H4, He. split; [reflexivity|]. split; [reflexivity|].
    rewrite after_first_add_document.
    cbn [map recorded stored_blocks first_answered].
    rewrite <- !app_assoc. reflexivity.
Qed.

(** The file holds the blocks as they were appended when the first text
    has no carriage return. *)
Lemma stored_blocks_plain (reread : bool)
    (calls : list (DateTime * str * option str)) :
  (forall now text cleaned_text rest,
     calls = (now, text, cleaned_text) :: rest ->
     Forall (fun c => c <> CR) (or_else cleaned_text text)) ->
  stored_blocks reread (map recorded calls) = blocks (map recorded calls).
Proof.
  intros H. destruct calls as [|[[now text] cleaned_text] rest]; [reflexivity|].
  cbn [map recorded stored_blocks].
  change (entry_block (time (entry_of now text cleaned_text))
            (cleaned (entry_of now text cleaned_text)))
    with (block_of now text cleaned_text).
  rewrite (stored_block_plain _ _ _ _ (H _ _ _ _ eq_refl)).
  unfold blocks. cbn [map concat]. reflexivity.
Qed.

(** After any run of [add_transcription] calls on a new session, every
    call has returned, the entries in memory are those of the calls in
    order, and the backing file is the header with the current title
    followed by one block per entry in the same order, each block as it
    was appended, but for the first one when the title inference
    answered: the title update has then read that block back in text
    mode, CR LF and lone CR as LF. So the file mirrors the entries
    whenever the first text has no carriage return. The only
    completion-service call made is the title inference for the first
    entry. *)
Theorem session_file_mirrors_entries (dir : option str) (start : DateTime)
    (w : World) (calls : list (DateTime * str * option str)) :
  let r := add_all calls (__init__ dir start w) in
  let entries := transcriptions (self (snd r)) in
  fst r = inr tt
  /\ entries = map recorded calls
  /\ session_content (snd r)
     = header (title (self (snd r))) start
       ++ stored_blocks (first_answered ollama_invoke calls) entries
  /\ ((forall now text cleaned_text rest,
         calls = (now, text, cleaned_text) :: rest ->
         Forall (fun c => c <> CR) (or_else cleaned_text text)) ->
      session_content (snd r)
      = header (title (self (snd r))) start ++ blocks entries)
  /\ llm_calls (world (snd r))
     = llm_calls w
       ++ match calls with
          | [] => []
          | (_, text, cleaned_text) :: _ => [title_prompt text cleaned_text]
          end.
Proof.
  cbv zeta.
  destruct (add_all_file dir start w calls) as (H1 & H2 & H3).
  split; [exact H1|]. split; [exact H2|].
  split; [rewrite H2; exact H3|].
  split; [intros Hplain; rewrite H3, H2, (stored_blocks_plain _ _ Hplain);
          reflexivity|].
  destruct calls as [|[[now text] cleaned_text] rest].
  - cbn [SessionManager.add_all ret snd]. rewrite init_state. cbn [world llm_calls write_file set_fs].
    rewrite app_nil_r. reflexivity.
  - cbn [SessionManager.add_all]. unfold bind. rewrite first_add.
    destruct (add_all_later unicode_alnum ollama_invoke os_rename_error rest
                (after_first_add dir start w now text cleaned_text))
      as (_ & Hc & _).
    { rewrite after_first_add_entries. discriminate. }
    rewrite Hc. apply after_first_add_calls.
Qed.

(** [finalize(organize=True)] on a session with entries never raises: it
    makes one completion-service call, on the joined cleaned texts, and
    appends the section header, then the trimmed answer or, when the
    service fails, the marker "(Organization failed: ...)" with the
    message of the exception, a blank line and the joined texts
    themselves, then the footer. It returns the path and leaves the
    object as it was. *)
Theorem finalize_organize_falls_back (st : State) (now : DateTime) :
  transcriptions (self st) <> [] ->
  let all_text := join [LF] (map cleaned (transcriptions (self st))) in
  let prompt := render organize_template all_text in
  let r := finalize now true st in
  fst r = inr (Some (filepath (self st)))
  /\ self (snd r) = self st
  /\ llm_calls (world (snd r)) = llm_calls (world st) ++ [prompt]
  /\ session_content (snd r)
     = session_content st ++ summary_header
       ++ match ollama_invoke prompt with
          | inr organized => strip organized
          | inl e => u "(Organization failed: " ++ exn_str e ++ u ")"
                     ++ [LF; LF] ++ all_text
          end
       ++ footer now.
Proof.
  intros Hne. cbv zeta. rewrite (finalize_nonempty _ _ _ _ Hne).
  cbn [fst snd self world]. repeat split.
  unfold session_content. cbn [world self].
  rewrite !file_content_append, file_content_log_call, file_content_append,
    <- !app_assoc.
  reflexivity.
Qed.

(** [finalize] can be repeated: on a session with entries a second call
    returns the path again and appends a second summary section after
    the first; the object is the same after both calls. *)
Theorem finalize_twice_appends_twice (st : State) (first second : DateTime)
    (organize organize' : bool) :
  transcriptions (self st) <> [] ->
  let all_text := join [LF] (map cleaned (transcriptions (self st))) in
  let st1 := snd (finalize first organize st) in
  let r := finalize second organize' st1 in
  fst r = inr (Some (filepath (self st)))
  /\ self (snd r) = self st
  /\ session_content (snd r)
     = session_content st
       ++ (summary_header ++ summary_body organize all_text ++ footer first)
       ++ (summary_header ++ summary_body organize' all_text ++ footer second).
Proof.
  intros Hne. cbv zeta. rewrite (finalize_nonempty _ _ _ _ Hne). cbn [snd].
  match goal with |- context [finalize second organize' ?s] =>
    assert (Hne1 : transcriptions (self s) <> []) by exact Hne;
    rewrite (finalize_nonempty _ _ _ _ Hne1)
  end.
  cbn [fst snd self world]. split; [reflexivity|]. split; [reflexivity|].
  unfold session_content. cbn [world self].
  destruct organize, organize';
    repeat (rewrite file_content_append || rewrite file_content_log_call);
    rewrite <- !app_assoc; reflexivity.
Qed.

Lemma strftime_file_chars (start : DateTime) :
  Forall (fun c => (48 <= c <= 57)%N \/ c = HYPHEN \/ c = UNDERSCORE)
    (strftime_file start).
Proof.
  assert (Hd : forall l, Forall (fun c => (48 <= c <= 57)%N) l ->
               Forall (fun c => (48 <= c <= 57)%N \/ c = HYPHEN \/ c = UNDERSCORE) l).
  { intros l Hl. eapply Forall_impl; [exact Hl|]. intros c Hc. left. exact Hc. }
  assert (Hh : Forall (fun c => (48 <= c <= 57)%N \/ c = HYPHEN \/ c = UNDERSCORE)
                 (u "-")).
  { constructor; [right; left; reflexivity | constructor]. }
  assert (Hu : Forall (fun c => (48 <= c <= 57)%N \/ c = HYPHEN \/ c = UNDERSCORE)
                 (u "_")).
  { constructor; [right; right; reflexivity | constructor]. }
  unfold strftime_file.
  repeat (apply Forall_app; split);
    first [exact Hh | exact Hu | apply Hd, pad2_digits | apply Hd, pad4_digits].
Qed.

Lemma kept_plain (c : codepoint) :
  kept c = true -> c <> SPACE -> plain_name_char c.
Proof.
  intros Hk Hs.
  repeat split; try exact Hs; intros ->; vm_compute in Hk; discriminate.
Qed.

Lemma safe_name_plain (title : str) :
  Forall (fun c => kept c = true) title ->
  Forall plain_name_char (take 30 (replace_space title)).
Proof.
  intros H. apply Forall_take. unfold replace_space. apply Forall_fmap.
  eapply Forall_impl; [exact H|]. intros c Hc. cbn.
  destruct (N.eqb_spec c SPACE) as [->|Hne].
  - repeat split; vm_compute; discriminate.
  - apply kept_plain; assumption.
Qed.


(** Saving a text as a session, as the web front end does: a new
    session, one [add_transcription], then [finalize(organize=False)].
    Both calls return, [finalize] gives the path of the file, and the
    file is the header with the title, the block of the entry (read back
    in text mode by the title update when the title inference answered:
    CR LF and lone CR as LF), the summary header, the cleaned text once
    more, as given, and the footer; for a text without carriage return
    the block is there as it was appended; the only completion-service
    call is the title inference. *)
Theorem saved_session_document (dir : option str) (start : DateTime)
    (w : World) (now fin : DateTime) (text : str) (cleaned_text : option str) :
  let st1 := snd (add_transcription now text cleaned_text
                    (__init__ dir start w)) in
  let r := finalize fin false st1 in
  let entry := or_else cleaned_text text in
  let titled := answered (ollama_invoke (title_prompt text cleaned_text)) in
  fst r = inr (Some (filepath (self st1)))
  /\ session_content (snd r)
     = header (title (self st1)) start
       ++ stored_block titled (entry_block (strftime_clock now) entry)
       ++ summary_header ++ entry ++ footer fin
  /\ (Forall (fun c => c <> CR) entry ->
      session_content (snd r)
      = header (title (self st1)) start
        ++ entry_block (strftime_clock now) entry
        ++ summary_header ++ entry ++ footer fin)
  /\ llm_calls (world (snd r)) = llm_calls w ++ [title_prompt text cleaned_text].
Proof.
  cbv zeta. rewrite first_add. cbn [snd].
  pose proof (after_first_add_entries unicode_alnum ollama_invoke
                os_rename_error OUTPUT_DIR dir start w now text cleaned_text)
    as He.
  assert (Hne : transcriptions (self (after_first_add dir start w now text
                                        cleaned_text)) <> [])
    by (rewrite He; discriminate).
  rewrite (finalize_nonempty _ _ _ _ Hne). cbn [fst snd world self].
  assert (Hc : session_content
                 (mkState
                    (append_file
                       (filepath (self (after_first_add dir start w now text
                                          cleaned_text)))
                       (footer fin)
                       (append_file
                          (filepath (self (after_first_add dir start w now text
                                             cleaned_text)))
                          (SessionManager.summary_body ollama_invoke false
                             (join [LF] (map cleaned
                                (transcriptions
                                   (self (after_first_add dir start w now text
                                            cleaned_text))))))
                          (append_file
                             (filepath (self (after_first_add dir start w now
                                                text cleaned_text)))
                             summary_header
                             (world (after_first_add dir start w now text
                                       cleaned_text)))))
                    (self (after_first_add dir start w now text cleaned_text)))
               = header (title (self (after_first_add dir start w now text
                                        cleaned_text))) start
                 ++ stored_block
                      (answered (ollama_invoke (title_prompt text cleaned_text)))
                      (block_of now text cleaned_text)
                 ++ summary_header ++ or_else cleaned_text text ++ footer fin).
  { unfold session_content. cbn [world self summary_body].
    rewrite !file_content_append.
    fold (session_content (after_first_add dir start w now text cleaned_text)).
    rewrite after_first_add_document, He. cbn [map join].
    rewrite <- !app_assoc. reflexivity. }
  split; [reflexivity|]. split; [exact Hc|]. split.
  - intros Hplain. rewrite Hc, (stored_block_plain _ _ _ _ Hplain).
    reflexivity.
  - cbn [llm_calls append_file set_fs].
    apply after_first_add_calls.
Qed.

End SessionFurther.


Lemma finalize_organize_falls_back_witness :
  fst (SessionManager.finalize SessionManager.service_down
         SessionManager.new_year_10_05 true SessionManager.scenario_titled)
  = inr (Some (u "sessions/2024-01-01_10-00_Greeting_Note.md")).
Proof.
  etransitivity.
  - refine (proj1 (finalize_organize_falls_back SessionManager.service_down
                     SessionManager.scenario_titled
                     SessionManager.new_year_10_05 _)).
    vm_compute. discriminate.
  - vm_compute. reflexivity.
Defined.

Lemma finalize_twice_appends_twice_witness :
  SessionManager.self
    (snd (SessionManager.finalize SessionManager.service_down
            SessionManager.new_year_10_05 true
            (snd (SessionManager.finalize SessionManager.service_down
                    SessionManager.new_year_10_05 false
                    SessionManager.scenario_titled))))
  = SessionManager.self SessionManager.scenario_titled.
Proof.
  refine (proj1 (proj2 (finalize_twice_appends_twice SessionManager.service_down
                          SessionManager.scenario_titled
                          SessionManager.new_year_10_05
                          SessionManager.new_year_10_05 false true _))).
  vm_compute. discriminate.
Defined.

(** ** The session browser *)
Section AppProperties.

Import SessionManager SessionFormat App.

Variable unicode_alnum : codepoint -> bool.

Local Abbreviation kept := (SessionManager.kept unicode_alnum).
Local Abbreviation inferred_title := (SessionManager.inferred_title unicode_alnum).

Lemma remove_md_step (c : codepoint) (rest : str) :
  c <> 46%N -> remove_md (c :: rest) = c :: remove_md rest.
Proof.
  intros H. destruct c as [|p]; [reflexivity|].
  do 6 (try (destruct p as [p|p|]; try reflexivity)).
  exfalso. apply H. reflexivity.
Qed.

Lemma remove_md_extension (a : str) :
  Forall (fun c => c <> 46%N) a -> remove_md (a ++ u ".md") = a.
Proof.
  induction 1 as [|c a Hc _ IH]; [reflexivity|].
  change ((c :: a) ++ u ".md") with (c :: (a ++ u ".md")).
  rewrite (remove_md_step _ _ Hc). f_equal. exact IH.
Qed.

Lemma cut_at_underscore_first (a b : str) :
  Forall (fun c => c <> UNDERSCORE) a ->
  cut_at_underscore (a ++ u "_" ++ b) = Some (a, b).
Proof.
  induction 1 as [|c a Hc _ IH]; [reflexivity|].
  change ((c :: a) ++ u "_" ++ b) with (c :: (a ++ u "_" ++ b)).
  cbn [cut_at_underscore].
  destruct (N.eqb_spec c UNDERSCORE); [contradiction|].
  unfold str, codepoint in *. rewrite IH. reflexivity.
Qed.

Lemma cut_at_underscore_none (a : str) :
  Forall (fun c => c <> UNDERSCORE) a -> cut_at_underscore a = None.
Proof.
  induction 1 as [|c a Hc _ IH]; [reflexivity|].
  cbn [cut_at_underscore]. destruct (N.eqb_spec c UNDERSCORE); [contradiction|].
  unfold str, codepoint in *. rewrite IH. reflexivity.
Qed.

Lemma digits_plain (l : str) (x : codepoint) :
  (x < 48 \/ 57 < x)%N ->
  Forall (fun c => (48 <= c <= 57)%N) l -> Forall (fun c => c <> x) l.
Proof.
  intros Hx Hl. eapply Forall_impl; [exact Hl|]. intros c Hc ->. lia.
Qed.

Lemma strftime_day_no_underscore (start : DateTime) :
  Forall (fun c => c <> UNDERSCORE) (strftime_day start).
Proof.
  unfold strftime_day.
  repeat (apply Forall_app; split);
    first [ apply digits_plain; [right; reflexivity | apply pad4_digits]
          | apply digits_plain; [right; reflexivity | apply pad2_digits]
          | repeat constructor; discriminate ].
Qed.

Lemma clock_no_underscore (start : DateTime) :
  Forall (fun c => c <> UNDERSCORE)
    (pad2 (hour start) ++ u "-" ++ pad2 (minute start)).
Proof.
  repeat (apply Forall_app; split);
    first [ apply digits_plain; [right; reflexivity | apply pad2_digits]
          | repeat constructor; discriminate ].
Qed.

Lemma strftime_file_day (start : DateTime) :
  strftime_file start
  = strftime_day start ++ u "_"
    ++ (pad2 (hour start) ++ u "-" ++ pad2 (minute start)).
Proof. unfold strftime_file, strftime_day. rewrite <- !app_assoc. reflexivity. Qed.

Lemma sidebar_entry_stamped (start : DateTime) (name modified : str) :
  Forall (fun c => c <> 46%N) name ->
  sidebar_entry (strftime_file start ++ u "_" ++ name ++ u ".md") modified
  = (strftime_day start, underscores_to_spaces name).
Proof.
  intros Hn. unfold sidebar_entry.
  replace (strftime_file start ++ u "_" ++ name ++ u ".md")
    with ((strftime_file start ++ u "_" ++ name) ++ u ".md")
    by (rewrite <- !app_assoc; reflexivity).
  rewrite remove_md_extension.
  - rewrite strftime_file_day, <- !app_assoc.
    cbn [split_underscore].
    rewrite (cut_at_underscore_first _ _ (strftime_day_no_underscore start)).
    replace (pad2 (hour start) ++ u "-" ++ pad2 (minute start) ++ u "_" ++ name)
      with ((pad2 (hour start) ++ u "-" ++ pad2 (minute start)) ++ u "_" ++ name)
      by (rewrite <- !app_assoc; reflexivity).
    rewrite (cut_at_underscore_first _ _ (clock_no_underscore start)).
    reflexivity.
  - apply Forall_app; split; [|apply Forall_app; split; [|exact Hn]].
    + eapply Forall_impl; [apply (strftime_file_chars start)|].
      intros c [Hc|[->| ->]]; [intros ->; lia | discriminate | discriminate].
    + repeat constructor; discriminate.
Qed.

Lemma spaces_round_trip (s : str) :
  Forall (fun c => c <> UNDERSCORE) s ->
  underscores_to_spaces (replace_space s) = s.
Proof.
  induction 1 as [|c s Hc _ IH]; [reflexivity|].
  unfold underscores_to_spaces, replace_space in *. cbn [map].
  rewrite IH. f_equal.
  destruct (N.eqb_spec c SPACE) as [->|Hs]; [reflexivity|].
  destruct (N.eqb_spec c UNDERSCORE); [contradiction | reflexivity].
Qed.

(** The session browser reads back the names that the session manager
    gives to its files. For the file renamed after the inferred title
    the sidebar shows, beside the day of the session start, a button
    whose label is the page sign, a space, the first 25 characters of
    the part of the title that went into the name, with every underscore
    shown as a space, and three dots; when the title has no underscore of
    its own, these are the first 25 characters of the title itself. For a
    file still under its first name the label reads "session..." after
    the sign. A name without underscore is shown by its first 25
    characters, without ".md", with the day of its last modification. *)
Theorem sidebar_reads_session_names (start : DateTime) (t modified : str) :
  let title := inferred_title t in
  sidebar_row (titled_name start title) modified
  = ([PAGE; SPACE]
     ++ take 25 (underscores_to_spaces (take 30 (replace_space title)))
     ++ u "...",
     strftime_day start)
  /\ (Forall (fun c => c <> UNDERSCORE) title ->
      sidebar_row (titled_name start title) modified
      = ([PAGE; SPACE] ++ take 25 title ++ u "...", strftime_day start))
  /\ sidebar_row (strftime_file start ++ u "_session.md") modified
     = ([PAGE; SPACE] ++ u "session...", strftime_day start)
  /\ (forall name,
        Forall (fun c => c <> UNDERSCORE) (remove_md name) ->
        sidebar_row name modified
        = ([PAGE; SPACE] ++ take 25 (remove_md name) ++ u "...", modified)).
Proof.
  cbv zeta.
  assert (Hplain : Forall (fun c => c <> 46%N)
                     (take 30 (replace_space (inferred_title t)))).
  { eapply Forall_impl.
    - apply (safe_name_plain unicode_alnum), inferred_title_kept.
    - intros c Hc. apply Hc. }
  assert (H1 : sidebar_entry (titled_name start (inferred_title t)) modified
               = (strftime_day start,
                  underscores_to_spaces (take 30 (replace_space (inferred_title t))))).
  { unfold titled_name. apply sidebar_entry_stamped, Hplain. }
  split; [unfold sidebar_row; rewrite H1; reflexivity|]. split; [|split].
  - intros Hu.
    assert (Hr : underscores_to_spaces
                   (take 30 (replace_space (inferred_title t)))
                 = take 30 (inferred_title t)).
    { unfold replace_space, underscores_to_spaces.
      rewrite <- fmap_take.
      change (underscores_to_spaces (replace_space (take 30 (inferred_title t)))
              = take 30 (inferred_title t)).
      apply spaces_round_trip, Forall_take, Hu. }
    unfold sidebar_row. rewrite H1, Hr. unfold button_label.
    rewrite take_take. reflexivity.
  - change (strftime_file start ++ u "_session.md")
      with (strftime_file start ++ u "_" ++ u "session" ++ u ".md").
    unfold sidebar_row. rewrite sidebar_entry_stamped; [reflexivity|].
    repeat constructor; discriminate.
  - intros name Hn. unfold sidebar_row, sidebar_entry. cbn [split_underscore].
    rewrite (cut_at_underscore_none _ Hn). reflexivity.
Qed.

End AppProperties.

Lemma sidebar_reads_session_names_witness :
  App.sidebar_row (u "2024-01-01_10-00_Greeting_Note.md") (u "2024-02-02")
  = ([App.PAGE; SPACE] ++ u "Greeting Note...", u "2024-01-01").
Proof.
  etransitivity.
  - etransitivity; [|refine (proj1 (proj2 (sidebar_reads_session_names
        SessionManager.no_unicode_alnum SessionManager.new_year_10am
        (u "Greeting Note") (u "2024-02-02"))) _)].
    + vm_compute. reflexivity.
    + vm_compute. repeat constructor; discriminate.
  - vm_compute. reflexivity.
Defined.

(** ** The dictation loop *)
Section MainProperties.

Import SessionManager SessionFormat Main.

Variable unicode_alnum : codepoint -> bool.
Variable ollama_invoke : str -> result str.
Variable ollama_stream : str -> list str * option exn.
Variable os_rename_error : World -> str -> str -> option exn.
Variable OUTPUT_DIR : str.
Variable new_recorder : str -> str -> result Transcriber.AudioToTextRecorder.
Variable mode : str.
Variable no_copy : bool.
Variable no_session : bool.

Local Abbreviation add_transcription :=
  (SessionManager.add_transcription unicode_alnum ollama_invoke os_rename_error).
Local Abbreviation add_all :=
  (SessionManager.add_all unicode_alnum ollama_invoke os_rename_error).
Local Abbreviation finalize := (SessionManager.finalize ollama_invoke).
Local Abbreviation cycle :=
  (Main.cycle unicode_alnum ollama_invoke ollama_stream os_rename_error mode
     no_copy).
Local Abbreviation loop :=
  (Main.loop unicode_alnum ollama_invoke ollama_stream os_rename_error mode
     no_copy).
Local Abbreviation produced := (Main.produced ollama_stream mode).
Local Abbreviation main :=
  (Main.main unicode_alnum ollama_invoke ollama_stream os_rename_error
     OUTPUT_DIR new_recorder mode no_copy no_session).

Local Arguments u : simpl never.
Local Arguments path_join : simpl never.
Local Arguments strftime_file : simpl never.
Local Arguments strftime_clock : simpl never.
Local Arguments re_sub_heading : simpl never.
Local Arguments SessionManager.sanitize : simpl never.
Local Arguments replace_space : simpl never.
Local Arguments take : simpl never.
Local Arguments entry_block : simpl never.
Local Arguments render : simpl never.
Local Arguments strip : simpl never.

(** [add_transcription] returns and records its entry in every state. *)
Lemma add_transcription_total (now : DateTime) (text : str)
    (cleaned_text : option str) (st : State) :
  fst (add_transcription now text cleaned_text st) = inr tt
  /\ transcriptions (self (snd (add_transcription now text cleaned_text st)))
     = transcriptions (self st) ++ [entry_of now text cleaned_text].
Proof.
  destruct (transcriptions (self st)) as [|e es] eqn:He.
  - unfold SessionManager.add_transcription, bind, update, effect, modify,
      get_self. cbn. rewrite He. cbn.
    destruct (decide (1 = 1)) as [_|Hn]; [|contradiction].
    unfold SessionManager._generate_title, try_except, bind, lift, update,
      modify, get_self, SessionManager.chain_invoke. cbn.
    destruct (ollama_invoke _); [cbn; rewrite He; split; reflexivity|].
    unfold SessionManager._update_file_title, try_except, bind, lift, update,
      effect, modify, get_self, read_file, SessionManager.os_rename, ret. cbn.
    rewrite lookup_insert_eq. cbn.
    destruct (os_rename_error _ _ _); cbn; [rewrite He; split; reflexivity|].
    rewrite lookup_insert_eq. cbn. rewrite He. split; reflexivity.
  - rewrite add_later by (rewrite He; discriminate).
    cbn. rewrite He. split; reflexivity.
Qed.

Lemma process_stream_keeps_files (text : str) (w : World) :
  fs (snd (TextProcessor.process_stream ollama_stream text mode w)) = fs w.
Proof.
  unfold TextProcessor.process_stream.
  destruct (TextProcessor.blank text); [reflexivity|].
  destruct (decide (mode = u "raw")); [reflexivity|].
  destruct (TextProcessor.PROMPTS !! mode) as [[t|]|]; reflexivity.
Qed.

(** A turn in which the engine hears nothing (it returns [None], an
    empty text or white space only, or has nothing left) changes neither
    the files, nor the session, nor the clipboard, and calls no
    service. *)
Theorem cycle_without_speech (a : App) (now : DateTime)
    (r : Transcriber.AudioToTextRecorder) :
  Transcriber.recorder (Transcriber.self (engine a)) = Some r ->
  match Transcriber.utterances (engine a) with
  | [] => True
  | utt :: _ => Recording.heard utt = inr []
  end ->
  fst (cycle now a) = inr tt
  /\ outside (snd (cycle now a)) = outside a
  /\ session (snd (cycle now a)) = session a
  /\ clipboard (snd (cycle now a)) = clipboard a.
Proof.
  intros Hr Hu. destruct (record_started _ _ Hr) as (H1 & _).
  unfold Main.cycle, bind, in_engine.
  destruct (Transcriber.record (engine a)) as [res p'].
  cbn [fst] in H1. subst res.
  destruct (Transcriber.utterances (engine a)) as [|utt rest];
    [|rewrite Hu]; cbn; repeat split.
Qed.

(** A turn in which the engine hears the text [raw]. In raw mode the
    processed text is [raw] itself; in any other mode it is the chunks
    of [process_stream] joined as they come, not trimmed. When the stream
    ends with an exception, the exception ends the turn: the session gets
    no entry, nothing is copied and no file changes. Otherwise the
    session, if there is one, records one entry with the raw text and the
    processed text, or the raw text again when the processed text is
    empty, and the processed text goes to the clipboard unless copying is
    off. *)
Theorem cycle_with_speech (a : App) (now : DateTime)
    (r : Transcriber.AudioToTextRecorder) (utt : Transcriber.Utterance)
    (rest : list Transcriber.Utterance) (raw : str) :
  Transcriber.recorder (Transcriber.self (engine a)) = Some r ->
  Transcriber.utterances (engine a) = utt :: rest ->
  Recording.heard utt = inr raw ->
  raw <> [] ->
  match produced raw (outside a) with
  | inl e =>
      fst (cycle now a) = inl e
      /\ session (snd (cycle now a)) = session a
      /\ clipboard (snd (cycle now a)) = clipboard a
      /\ fs (outside (snd (cycle now a))) = fs (outside a)
  | inr processed =>
      fst (cycle now a) = inr tt
      /\ clipboard (snd (cycle now a))
         = clipboard a ++ (if no_copy then [] else [processed])
      /\ match session a with
         | None => session (snd (cycle now a)) = None
         | Some s =>
             exists s',
               session (snd (cycle now a)) = Some s'
               /\ transcriptions s'
                  = transcriptions s
                    ++ [mkEntry (strftime_clock now) raw
                          (if truthy processed then processed else raw)]
         end
  end.
Proof.
  intros Hr Hu Hh Hraw. destruct (record_started _ _ Hr) as (H1 & _).
  rewrite Hu, Hh in H1.
  destruct (cycle now a) as [res a'] eqn:Hc. cbn [fst snd].
  unfold Main.cycle, Main.produced, bind, in_engine in *.
  destruct (Transcriber.record (engine a)) as [res0 p'].
  cbn [fst] in H1. subst res0.
  destruct raw as [|c raw']; [contradiction|]. cbn [truthy negb] in Hc.
  cbn [outside session clipboard engine] in Hc.
  destruct (decide (mode <> u "raw")) as [Hm|Hm].
  - unfold in_world, collect in *. cbn [outside session clipboard engine] in Hc.
    pose proof (process_stream_keeps_files (c :: raw') (outside a)) as Hfs.
    destruct (TextProcessor.process_stream ollama_stream (c :: raw') mode
                (outside a)) as [[chunks [e|]] w'];
      cbn [fst snd] in *.
    + injection Hc as <- <-. repeat split. exact Hfs.
    + unfold with_session in Hc. cbn [outside session clipboard engine] in Hc.
      destruct (session a) as [s|].
      * match type of Hc with context [add_transcription ?n ?t ?c ?st] =>
          destruct (add_transcription_total n t c st) as (Ha & Hb);
          destruct (add_transcription n t c st) as [ra st1]
        end.
        cbn [fst snd] in *. subst ra.
        destruct no_copy; unfold ret, copy, modify in Hc; injection Hc as <- <-;
          cbn [clipboard session]; rewrite ?app_nil_r;
          (split; [reflexivity|]; split; [reflexivity|]);
          eexists; (split; [reflexivity|]); exact Hb.
      * destruct no_copy; unfold ret, copy, modify in Hc; injection Hc as <- <-;
          cbn [clipboard session]; rewrite ?app_nil_r; repeat split.
  - unfold ret at 1 in Hc. unfold with_session in Hc.
    cbn [outside session clipboard engine] in Hc.
    destruct (session a) as [s|].
    + match type of Hc with context [add_transcription ?n ?t ?c ?st] =>
        destruct (add_transcription_total n t c st) as (Ha & Hb);
        destruct (add_transcription n t c st) as [ra st1]
      end.
      cbn [fst snd] in *. subst ra.
      destruct no_copy; unfold ret, copy, modify in Hc; injection Hc as <- <-;
        cbn [clipboard session]; rewrite ?app_nil_r;
        (split; [reflexivity|]; split; [reflexivity|]);
        eexists; (split; [reflexivity|]); exact Hb.
    + destruct no_copy; unfold ret, copy, modify in Hc; injection Hc as <- <-;
        cbn [clipboard session]; rewrite ?app_nil_r; repeat split.
Qed.

Lemma dictated_nil (presses : list DateTime) : dictated presses [] = [].
Proof. destruct presses; reflexivity. Qed.

Lemma heard_reliable (utt : Transcriber.Utterance) :
  (exists o, Transcriber.final utt = inr o) ->
  exists text, Recording.heard utt = inr text.
Proof.
  intros [o Ho]. unfold Recording.heard. rewrite Ho.
  destruct o; eexists; reflexivity.
Qed.

(** A turn in raw mode with a session, by what [record] returns. *)
Lemma cycle_raw (a : App) (now : DateTime) (s : SessionManager) :
  mode = u "raw" ->
  session a = Some s ->
  cycle now a
  = let rec := Transcriber.record (engine a) in
    match fst rec with
    | inl e => (inl e, mkApp (snd rec) (outside a) (Some s) (clipboard a))
    | inr raw =>
        if truthy raw then
          let st1 := snd (add_transcription now raw (Some raw)
                            (mkState (outside a) s)) in
          (inr tt, mkApp (snd rec) (world st1) (Some (self st1))
                     (clipboard a ++ (if no_copy then [] else [raw])))
        else (inr tt, mkApp (snd rec) (outside a) (Some s) (clipboard a))
    end.
Proof.
  intros Hm Hs. cbv zeta. unfold Main.cycle, bind, in_engine.
  destruct (Transcriber.record (engine a)) as [[e|raw] p']; cbn [fst snd].
  - rewrite Hs. reflexivity.
  - destruct (truthy raw); cbn [negb]; [|rewrite Hs; reflexivity].
    destruct (decide (mode <> u "raw")) as [Hn|_]; [contradiction|].
    unfold ret at 1. unfold with_session. cbn [outside session clipboard engine].
    rewrite Hs.
    destruct (add_transcription_total now raw (Some raw) (mkState (outside a) s))
      as (Ha & _).
    destruct (add_transcription now raw (Some raw) (mkState (outside a) s))
      as [ra st1].
    cbn [fst snd] in *. subst ra.
    destruct no_copy; unfold ret, copy, modify; cbn [clipboard session outside engine];
      rewrite ?app_nil_r; reflexivity.
Qed.

Lemma loop_raw (presses : list DateTime) :
  forall (a : App) (r : Transcriber.AudioToTextRecorder) (s : SessionManager),
    mode = u "raw" ->
    Transcriber.recorder (Transcriber.self (engine a)) = Some r ->
    engine_reliable (Transcriber.utterances (engine a)) ->
    session a = Some s ->
    let calls := dictated presses (Transcriber.utterances (engine a)) in
    let st' := snd (add_all calls (mkState (outside a) s)) in
    let a' := snd (loop presses a) in
    fst (loop presses a) = inr tt
    /\ fst (add_all calls (mkState (outside a) s)) = inr tt
    /\ outside a' = world st'
    /\ session a' = Some (self st')
    /\ clipboard a'
       = clipboard a ++ (if no_copy then [] else map (fun c => c.1.2) calls)
    /\ Transcriber.recorder (Transcriber.self (engine a')) = Some r
    /\ Transcriber.shut_down (engine a') = Transcriber.shut_down (engine a).
Proof.
  induction presses as [|now rest IH]; intros a r s Hm Hr Hrel Hs; cbv zeta.
  - cbn [Main.loop dictated SessionManager.add_all ret fst snd world self map].
    destruct no_copy; rewrite app_nil_r; repeat split; assumption.
  - cbn [Main.loop]. unfold bind at 1 2 3 4 5 6.
    rewrite (cycle_raw a now s Hm Hs). cbv zeta.
    destruct (record_started _ _ Hr) as (H1 & H2 & H3 & H4).
    destruct (Transcriber.record (engine a)) as [res p'].
    cbn [fst snd] in *. subst res.
    destruct (Transcriber.utterances (engine a)) as [|utt us] eqn:Hu.
    + cbn [truthy]. rewrite dictated_nil.
      specialize (IH (mkApp p' (outside a) (Some s) (clipboard a)) r s Hm).
      cbn [engine outside session clipboard] in IH.
      rewrite H3 in IH. cbn [tail] in IH. rewrite dictated_nil in IH.
      destruct IH as (I1 & I2 & I3 & I4 & I5 & I6 & I7);
        [exact H2 | constructor | reflexivity |].
      repeat split; try assumption. rewrite I7. exact H4.
    + apply Forall_cons in Hrel as [Hutt Hus].
      destruct (heard_reliable utt Hutt) as [text Ht].
      cbn [dictated]. rewrite Ht.
      destruct (truthy text) eqn:Htext.
      * cbn [SessionManager.add_all]. unfold bind.
        destruct (add_transcription_total now text (Some text)
                    (mkState (outside a) s)) as (Ha & _).
        destruct (add_transcription now text (Some text) (mkState (outside a) s))
          as [ra st1].
        cbn [fst snd] in *. subst ra.
        specialize (IH (mkApp p' (world st1) (Some (self st1))
                          (clipboard a ++ (if no_copy then [] else [text])))
                       r (self st1) Hm).
        cbn [engine outside session clipboard] in IH.
        rewrite H3 in IH. cbn [tail] in IH.
        destruct IH as (I1 & I2 & I3 & I4 & I5 & I6 & I7);
          [exact H2 | exact Hus | reflexivity |].
        destruct st1 as [w1 s1]. cbn [world self] in *.
        repeat split; try assumption.
        -- rewrite I5. destruct no_copy; cbn [map fst snd];
             rewrite <- ?app_assoc; reflexivity.
        -- rewrite I7. exact H4.
      * specialize (IH (mkApp p' (outside a) (Some s) (clipboard a)) r s Hm).
        cbn [engine outside session clipboard] in IH.
        rewrite H3 in IH. cbn [tail] in IH.
        destruct IH as (I1 & I2 & I3 & I4 & I5 & I6 & I7);
          [exact H2 | exact Hus | reflexivity |].
        repeat split; try assumption. rewrite I7. exact H4.
Qed.

Lemma loop_raw_from (presses : list DateTime) (a : App)
    (r : Transcriber.AudioToTextRecorder) (st : State) :
  mode = u "raw" ->
  Transcriber.recorder (Transcriber.self (engine a)) = Some r ->
  engine_reliable (Transcriber.utterances (engine a)) ->
  outside a = world st ->
  session a = Some (self st) ->
  let calls := dictated presses (Transcriber.utterances (engine a)) in
  fst (loop presses a) = inr tt
  /\ outside (snd (loop presses a)) = world (snd (add_all calls st))
  /\ session (snd (loop presses a)) = Some (self (snd (add_all calls st)))
  /\ clipboard (snd (loop presses a))
     = clipboard a ++ (if no_copy then [] else map (fun c => c.1.2) calls)
  /\ Transcriber.recorder (Transcriber.self (engine (snd (loop presses a))))
     = Some r
  /\ Transcriber.shut_down (engine (snd (loop presses a)))
     = Transcriber.shut_down (engine a).
Proof.
  intros Hm Hr Hrel Ho Hs. cbv zeta. destruct st as [w0 s0].
  cbn [world self] in Ho, Hs.
  destruct (loop_raw presses a r s0 Hm Hr Hrel Hs)
    as (L1 & _ & L3 & L4 & L5 & L6 & L7).
  rewrite Ho in L3, L4. repeat split; assumption.
Qed.

(** When the speech engine cannot be built, [main] ends with the
    exception of [start] before anything else happens: no session file
    is created, no service is called, nothing is copied, and neither
    [finalize] nor [stop] runs. *)
Theorem engine_failure_aborts_main (w : World)
    (waiting : list Transcriber.Utterance) (begin : DateTime)
    (presses : list DateTime) (finish : DateTime) (e : exn) :
  new_recorder (u "medium.en") (u "cuda") = inl e ->
  let res := main w waiting begin presses finish in
  fst res = inl e
  /\ outside (snd res) = w
  /\ session (snd res) = None
  /\ clipboard (snd res) = []
  /\ Transcriber.shut_down (engine (snd res)) = []
  /\ Transcriber.utterances (engine (snd res)) = waiting.
Proof.
  intros He. cbv zeta. unfold Main.main, in_engine, Transcriber.start.
  cbn [engine Transcriber.self Transcriber.model Transcriber.device
       Transcriber.__init__].
  rewrite He. repeat split.
Qed.

(** A whole run in raw mode with a session, when the engine starts and
    never raises: [main] ends normally; the session holds one entry per
    utterance whose trimmed text is not empty, in order, with the raw
    text as cleaned text; the same texts were copied in the same order
    (none when copying is off); the session file is the header, one block
    per entry (each as it was appended, but for the first one when the
    title inference answered: the title update has read it back in text
    mode, CR LF and lone CR as LF) and, when there is an entry, the
    summary section of [finalize(organize=True)]; and the engine was
    shut down once. *)
Theorem raw_dictation_end_to_end (w : World)
    (waiting : list Transcriber.Utterance) (begin : DateTime)
    (presses : list DateTime) (finish : DateTime)
    (r : Transcriber.AudioToTextRecorder) :
  mode = u "raw" ->
  no_session = false ->
  new_recorder (u "medium.en") (u "cuda") = inr r ->
  engine_reliable waiting ->
  let calls := dictated presses waiting in
  let res := main w waiting begin presses finish in
  fst res = inr tt
  /\ clipboard (snd res) = (if no_copy then [] else map (fun c => c.1.2) calls)
  /\ Transcriber.shut_down (engine (snd res)) = [Transcriber.engine_id r]
  /\ exists s,
       session (snd res) = Some s
       /\ transcriptions s = map recorded calls
       /\ file_content (outside (snd res)) (filepath s)
          = header (title s) begin
            ++ stored_blocks (first_answered ollama_invoke calls)
                 (map recorded calls)
            ++ match calls with
               | [] => []
               | _ => summary_header
                      ++ SessionManager.summary_body ollama_invoke true
                           (join [LF] (map cleaned (map recorded calls)))
                      ++ footer finish
               end.
Proof.
  intros Hm Hns Hrec Hrel. cbv zeta.
  destruct (main w waiting begin presses finish) as [res af] eqn:Hmain.
  cbn [fst snd].
  unfold Main.main, in_engine at 1, Transcriber.start in Hmain.
  cbn [engine Transcriber.self Transcriber.model Transcriber.device
       Transcriber.__init__ outside session clipboard] in Hmain.
  rewrite Hrec, Hns in Hmain. unfold Transcriber.set_self in Hmain.
  cbn [engine outside session clipboard Transcriber.self Transcriber.callback_log
       Transcriber.shut_down Transcriber.utterances] in Hmain.
  match type of Hmain with context [loop presses ?a] =>
    destruct (loop_raw_from presses a r
                (SessionManager.__init__ OUTPUT_DIR None begin w) Hm)
      as (L1 & L3 & L4 & L5 & L6 & L7);
      [reflexivity | exact Hrel | reflexivity | reflexivity |];
    destruct (loop presses a) as [lr a2]
  end.
  cbn [fst snd engine outside session clipboard Transcriber.utterances
       Transcriber.shut_down app] in *.
  subst lr.
  destruct (add_all_file unicode_alnum ollama_invoke os_rename_error OUTPUT_DIR
              None begin w (dictated presses waiting)) as (_ & F2 & F3).
  revert L3 L4 F2 F3.
  generalize (snd (add_all (dictated presses waiting)
                     (SessionManager.__init__ OUTPUT_DIR None begin w))).
  intros [w' s'] L3 L4 F2 F3. cbn [world self] in *.
  unfold session_content in F3. cbn [world self] in F3.
  unfold shutdown, bind, with_session, in_engine in Hmain.
  rewrite L4, L3 in Hmain.
  destruct (dictated presses waiting) as [|c cs] eqn:Hcalls.
  - assert (Hemp : transcriptions (self (mkState w' s')) = []) by exact F2.
    rewrite (finalize_empty ollama_invoke finish true (mkState w' s') Hemp)
      in Hmain.
    unfold ret in Hmain.
    cbn [fst snd world self engine outside session clipboard] in Hmain.
    unfold Transcriber.stop in Hmain. rewrite L6 in Hmain.
    injection Hmain as <- <-.
    cbn [fst snd world self engine outside session clipboard
         Transcriber.shut_down].
    rewrite L7, L5. cbn [app].
    split; [reflexivity|]. split; [destruct no_copy; reflexivity|].
    split; [reflexivity|].
    exists s'. split; [reflexivity|]. split; [exact F2|].
    rewrite F3. cbn [map stored_blocks]. rewrite !app_nil_r.
    reflexivity.
  - assert (Hne : transcriptions (self (mkState w' s')) <> [])
      by (cbn [self]; rewrite F2; discriminate).
    rewrite (finalize_nonempty ollama_invoke finish true (mkState w' s') Hne)
      in Hmain.
    unfold ret in Hmain.
    cbn [fst snd world self engine outside session clipboard] in Hmain.
    unfold Transcriber.stop in Hmain. rewrite L6 in Hmain.
    injection Hmain as <- <-.
    cbn [fst snd world self engine outside session clipboard
         Transcriber.shut_down].
    rewrite L7, L5. cbn [app].
    split; [reflexivity|]. split; [destruct no_copy; reflexivity|].
    split; [reflexivity|].
    exists s'. split; [reflexivity|]. split; [exact F2|].
    rewrite !file_content_append, file_content_log_call, file_content_append.
    rewrite F3, F2, <- !app_assoc. reflexivity.
Qed.

End MainProperties.

Lemma cycle_without_speech_witness :
  Main.outside
    (snd (Main.cycle SessionManager.no_unicode_alnum
            (SessionManager.service_returns (u "Greeting Note"))
            TextProcessor.stub_stream SessionManager.rename_allowed
            (u "clean") false SessionManager.new_year_10_05 Main.silent_app))
  = Main.outside Main.silent_app.
Proof.
  refine (proj1 (proj2 (cycle_without_speech SessionManager.no_unicode_alnum
    (SessionManager.service_returns (u "Greeting Note"))
    TextProcessor.stub_stream SessionManager.rename_allowed (u "clean") false
    Main.silent_app SessionManager.new_year_10_05 Recording.demo_engine _ _))).
  - reflexivity.
  - reflexivity.
Defined.

Lemma cycle_with_speech_witness :
  Main.clipboard
    (snd (Main.cycle SessionManager.no_unicode_alnum
            (SessionManager.service_returns (u "Greeting Note"))
            TextProcessor.stub_stream SessionManager.rename_allowed
            (u "clean") false SessionManager.new_year_10_05 Main.demo_app))
  = [u " Hi there. "].
Proof.
  pose proof (cycle_with_speech SessionManager.no_unicode_alnum
    (SessionManager.service_returns (u "Greeting Note"))
    TextProcessor.stub_stream SessionManager.rename_allowed (u "clean") false
    Main.demo_app SessionManager.new_year_10_05 Recording.demo_engine
    Recording.demo_utterance [] (u "hi there")) as H.
  assert (Hp : Main.produced TextProcessor.stub_stream (u "clean") (u "hi there")
                 (Main.outside Main.demo_app) = inr (u " Hi there. "))
    by (vm_compute; reflexivity).
  rewrite Hp in H.
  destruct H as (_ & H & _).
  - reflexivity.
  - reflexivity.
  - vm_compute. reflexivity.
  - vm_compute. discriminate.
  - exact H.
Defined.

Lemma engine_failure_aborts_main_witness :
  fst (Main.main SessionManager.no_unicode_alnum
         (SessionManager.service_returns (u "Greeting Note"))
         TextProcessor.stub_stream SessionManager.rename_allowed (u "sessions")
         Recording.no_engine (u "clean") false false
         empty_world [Recording.demo_utterance] SessionManager.new_year_10am
         [SessionManager.new_year_10_05] SessionManager.new_year_10_05)
  = inl (OSError (u "no CUDA device")).
Proof.
  refine (proj1 (engine_failure_aborts_main SessionManager.no_unicode_alnum
    (SessionManager.service_returns (u "Greeting Note"))
    TextProcessor.stub_stream SessionManager.rename_allowed (u "sessions")
    Recording.no_engine (u "clean") false false
    empty_world [Recording.demo_utterance] SessionManager.new_year_10am
    [SessionManager.new_year_10_05] SessionManager.new_year_10_05 _ _)).
  reflexivity.
Defined.

Lemma raw_dictation_end_to_end_witness :
  Main.clipboard
    (snd (Main.main SessionManager.no_unicode_alnum
            (SessionManager.service_returns (u "Greeting Note"))
            TextProcessor.stub_stream SessionManager.rename_allowed (u "sessions")
            Main.engine_ok (u "raw") false false
            empty_world [Main.silence; Recording.demo_utterance]
            SessionManager.new_year_10am
            [SessionManager.new_year_10_05; SessionManager.new_year_10_05]
            SessionManager.new_year_10_05))
  = [u "hi there"].
Proof.
  etransitivity.
  - refine (proj1 (proj2 (raw_dictation_end_to_end SessionManager.no_unicode_alnum
      (SessionManager.service_returns (u "Greeting Note"))
      TextProcessor.stub_stream SessionManager.rename_allowed (u "sessions")
      Main.engine_ok (u "raw") false false
      empty_world [Main.silence; Recording.demo_utterance]
      SessionManager.new_year_10am
      [SessionManager.new_year_10_05; SessionManager.new_year_10_05]
      SessionManager.new_year_10_05 Recording.demo_engine _ _ _ _))).
    + reflexivity.
    + reflexivity.
    + reflexivity.
    + repeat constructor; eexists; reflexivity.
  - vm_compute. reflexivity.
Defined.

Lemma edit_known_mode_witness :
  DocumentEditor.edit EditFile.editor_service EditFile.notes (u "action_items")
    empty_world
  = (inr (u "- [ ] buy milk"),
     log_call (render DocumentEditor.EDIT_PROMPTS_action_items EditFile.notes)
       empty_world).
Proof.
  etransitivity.
  - apply (edit_known_mode EditFile.editor_service EditFile.notes
             (u "action_items") DocumentEditor.EDIT_PROMPTS_action_items
             empty_world).
    vm_compute. reflexivity.
  - vm_compute. reflexivity.
Defined.
